(** * Live Conversation Translator: the turn-processing pipeline

    A shallow embedding of [translator.py] (classes [ConversationEntry]
    and [LiveTranslator]) and the properties of its turn processor
    [process]: noise filtering, translation, asynchronous speech and the
    session history.

    Python strings are sequences of Unicode code points, so a [str] is a
    list of code points; [len] is the length of that list.  Everything
    the program does to the outside world (console output, the request
    to the translation service, starting the speech thread) is recorded
    in a trace of [event]s; the answers of the outside world (the
    translation service, the wall clock, the audio stack) are an explicit
    [World]. *)

From Stdlib Require Import NArith String Ascii DecimalString.
From stdpp Require Import base option list gmap.

Open Scope N_scope.

(** ** Strings *)

Definition char := N.
Definition str := list char.

(** A Python string literal made of ASCII characters only. *)
Definition lit (s : string) : str :=
  map N_of_ascii (list_ascii_of_string s).

(** [Py_UNICODE_ISSPACE]: the characters [str.strip()] removes when it is
    called without argument. *)
Definition py_isspace (c : char) : bool :=
  ((0x09 <=? c) && (c <=? 0x0D)) || ((0x1C <=? c) && (c <=? 0x20))
  || (c =? 0x85) || (c =? 0xA0) || (c =? 0x1680)
  || ((0x2000 <=? c) && (c <=? 0x200A))
  || (c =? 0x2028) || (c =? 0x2029) || (c =? 0x202F) || (c =? 0x205F)
  || (c =? 0x3000).

Fixpoint lstrip (s : str) : str :=
  match s with
  | [] => []
  | c :: rest => if py_isspace c then lstrip rest else s
  end.

Definition rstrip (s : str) : str := reverse (lstrip (reverse s)).

(** [text.strip()] *)
Definition strip (s : str) : str := rstrip (lstrip s).

(** ** Module-level tables *)

Definition LANGUAGES : gmap str str :=
  <[lit "es" := lit "Spanish"]> (<[lit "hi" := lit "Hindi"]> ∅).

Definition LANG_COLOR : gmap str str :=
  <[lit "es" := lit "cyan"]> (<[lit "hi" := lit "green"]> ∅).

Definition SR_LANG_CODE : gmap str str :=
  <[lit "es" := lit "es-ES"]> (<[lit "hi" := lit "hi-IN"]> ∅).

(** ** Data model *)

Record ConversationEntry := mkEntry {
  original : str;
  translated : str;
  entry_source_lang : str;
  entry_target_lang : str;
  timestamp : str
}.

Record LiveTranslator := mkTranslator {
  source_lang : str;
  target_lang : str;
  history : list ConversationEntry
}.

(** [LiveTranslator.__init__] *)
Definition init (source_lang target_lang : str) : LiveTranslator :=
  mkTranslator source_lang target_lang [].

(** ** The plausibility filter *)

(** The literal ["aeiouAEIOUअआइईउऊएऐओऔ"] and the set built from it. *)
Definition vowel_letters : list char :=
  [0x61; 0x65; 0x69; 0x6F; 0x75; 0x41; 0x45; 0x49; 0x4F; 0x55;
   0x905; 0x906; 0x907; 0x908; 0x909; 0x90A; 0x90F; 0x910; 0x913; 0x914].

Definition vowels : gset char := list_to_set vowel_letters.

Definition _looks_like_speech (text : str) : bool :=
  if (length text <? 2)%nat then false
  else existsb (fun ch => bool_decide (ch ∈ vowels)) text.

(** ** Effects

    Exceptions of the classes the program meets.  All three are
    subclasses of [Exception]; [Error] stands for any other subclass,
    with [str(e)] as its argument. *)

Inductive exn :=
  | KeyError (key : str)
  | ImportError (msg : str)
  | Error (msg : str).

(** [str(e)], as interpolated by an f-string.  For a [KeyError] this is
    the repr of the key, written here for keys without quotes or
    escapes. *)
Definition exn_str (e : exn) : str :=
  match e with
  | KeyError key => lit "'" ++ key ++ lit "'"
  | ImportError msg => msg
  | Error msg => msg
  end.

Inductive outcome (A : Type) :=
  | Ok (a : A)
  | Raised (e : exn).
Arguments Ok {A} a.
Arguments Raised {A} e.

(** One row of the history table: time, original, translation. *)
Definition table_row : Type := str * str * str.

Inductive event :=
  | ConsolePrint (markup : str)
  | ConsolePrintTable (title : str) (rows : list table_row)
  | TranslateRequest (source target text : str)
  | ThreadStart (text lang : str)
  | AudioRequest (text lang : str).

(** The collaborators the program calls: the translation backend
    ([GoogleTranslator(source, target).translate(text)], which returns a
    string or [None], or raises), the wall clock
    ([datetime.now().strftime("%H:%M:%S")]) and the audio stack (the
    body of the [try] block of [speak]: import, synthesis, playback). *)
Record World := mkWorld {
  google_translate : str -> str -> str -> outcome (option str);
  now : str;
  audio : str -> str -> outcome unit
}.

(** A computation on the session: it reads and updates [self], may
    raise, and emits events. *)
Definition M (A : Type) : Type :=
  LiveTranslator -> outcome A * LiveTranslator * list event.

Definition ret {A} (a : A) : M A := fun self => (Ok a, self, []).

Definition bind {A B} (m : M A) (k : A -> M B) : M B :=
  fun self =>
    match m self with
    | (Ok a, self', tr) =>
        match k a self' with
        | (r, self'', tr') => (r, self'', tr ++ tr')
        end
    | (Raised e, self', tr) => (Raised e, self', tr)
    end.

Definition raise {A} (e : exn) : M A := fun self => (Raised e, self, []).

Definition get_self : M LiveTranslator := fun self => (Ok self, self, []).

Definition emit (ev : event) : M unit := fun self => (Ok tt, self, [ev]).

(** An [except] clause: the test of its exception class and its body. *)
Definition except_clause (A : Type) : Type := (exn -> bool) * (exn -> M A).

Fixpoint find_clause {A} (clauses : list (except_clause A)) (e : exn)
    : option (exn -> M A) :=
  match clauses with
  | [] => None
  | (catches, handler) :: rest =>
      if catches e then Some handler else find_clause rest e
  end.

(** [try: body except C1: h1 except C2 as e: h2 ...]: the first clause
    whose class matches handles the exception; an exception raised by a
    handler is not handled by its siblings. *)
Definition try_except {A} (body : M A) (clauses : list (except_clause A))
    : M A :=
  fun self =>
    match body self with
    | (Ok a, self', tr) => (Ok a, self', tr)
    | (Raised e, self', tr) =>
        match find_clause clauses e with
        | Some handler =>
            match handler e self' with
            | (r, self'', tr') => (r, self'', tr ++ tr')
            end
        | None => (Raised e, self', tr)
        end
    end.

Declare Scope py_scope.
Delimit Scope py_scope with py.
Notation "x <- c ;; k" := (bind c (fun x => k))
  (at level 100, c at next level, right associativity) : py_scope.
Notation "c ;; k" := (bind c (fun _ => k))
  (at level 100, right associativity) : py_scope.
Open Scope py_scope.

(** [d[key]] *)
Definition getitem (d : gmap str str) (key : str) : M str :=
  match d !! key with
  | Some v => ret v
  | None => raise (KeyError key)
  end.

(** [console.print(markup)] *)
Definition console_print (markup : str) : M unit := emit (ConsolePrint markup).

(** Call of an external collaborator: the request is observable, the
    answer comes from the world. *)
Definition external {A} (request : event) (answer : outcome A) : M A :=
  fun self => (answer, self, [request]).


Definition is_Exception (e : exn) : bool := true.

(** [result or ""], for [result] a string or [None]. *)
Definition or_empty (result : option str) : str :=
  match result with
  | Some [] | None => []
  | Some r => r
  end.

(** [ConversationEntry.__init__]; the timestamp is read from the clock. *)
Definition new_entry (w : World) (original translated source_lang target_lang : str)
    : M ConversationEntry :=
  ret (mkEntry original translated source_lang target_lang (now w)).

(** [self.history.append(entry)] *)
Definition history_append (entry : ConversationEntry) : M unit :=
  fun self =>
    (Ok tt,
     mkTranslator (source_lang self) (target_lang self) (history self ++ [entry]),
     []).

(** ** Console markup *)

Definition translation_error (e : exn) : str :=
  lit "[red]Translation error: " ++ exn_str e ++ lit "[/red]".



Definition skipping_noise (text : str) : str :=
  lit "[dim]Skipping noise: '" ++ text ++ lit "'[/dim]".

(** The line that echoes [text] under the name and colour of a language;
    [lead] is the text before the opening tag. *)
Definition language_line (lead color name text : str) : str :=
  lead ++ lit "[" ++ color ++ lit "]" ++ name ++ lit ":[/" ++ color
       ++ lit "]  " ++ text.

Definition speaking_notice : str :=
  lit "[dim]  Speaking" ++ [0x2026] ++ lit "[/dim]".

(** ** [LiveTranslator] methods *)

Section Methods.

Variable w : World.

Definition translate (text : str) : M str :=
  try_except
    (self <- get_self ;;
     result <- external
       (TranslateRequest (source_lang self) (target_lang self) text)
       (google_translate w (source_lang self) (target_lang self) text) ;;
     ret (or_empty result))
    [(is_Exception,
      fun e =>
        console_print (translation_error e) ;;
        ret [])].


Definition process (text : str) : M (option ConversationEntry) :=
  let text := strip text in
  if bool_decide (text = []) then ret None
  else if negb (_looks_like_speech text) then
    console_print (skipping_noise text) ;;
    ret None
  else
    self <- get_self ;;
    src_color <- getitem LANG_COLOR (source_lang self) ;;
    tgt_color <- getitem LANG_COLOR (target_lang self) ;;
    src_name <- getitem LANGUAGES (source_lang self) ;;
    console_print (language_line (0x0A :: lit "  ") src_color src_name text) ;;
    translated <- translate text ;;
    if bool_decide (translated = []) then ret None
    else
      tgt_name <- getitem LANGUAGES (target_lang self) ;;
      console_print (language_line (lit "  ") tgt_color tgt_name translated) ;;
      console_print speaking_notice ;;
      emit (ThreadStart translated (target_lang self)) ;;
      entry <- new_entry w text translated (source_lang self) (target_lang self) ;;
      history_append entry ;;
      ret (Some entry).

End Methods.

(** [for entry in self.history: table.add_row(...)] *)
Fixpoint history_rows (entries : list ConversationEntry) : M (list table_row) :=
  match entries with
  | [] => ret []
  | entry :: rest =>
      src_color <- getitem LANG_COLOR (entry_source_lang entry) ;;
      tgt_color <- getitem LANG_COLOR (entry_target_lang entry) ;;
      rows <- history_rows rest ;;
      ret ((timestamp entry,
            lit "[" ++ src_color ++ lit "]" ++ original entry
                ++ lit "[/" ++ src_color ++ lit "]",
            lit "[" ++ tgt_color ++ lit "]" ++ translated entry
                ++ lit "[/" ++ tgt_color ++ lit "]") :: rows)
  end.

Definition _show_history : M unit :=
  self <- get_self ;;
  match history self with
  | [] => console_print (lit "[dim]No conversation history yet.[/dim]")
  | _ :: _ =>
      rows <- history_rows (history self) ;;
      emit (ConsolePrintTable (lit "Conversation History") rows)
  end.

(** The choice of direction in [main]. *)
Definition select_direction (direction : str) : str * str :=
  if bool_decide (strip direction = lit "2") then (lit "hi", lit "es")
  else (lit "es", lit "hi").

Definition main_session (direction : str) : LiveTranslator :=
  let '(source_lang, target_lang) := select_direction direction in
  init source_lang target_lang.

(** ** Small inputs *)

Definition hola : str := lit "hola".
Definition namaste : str := [0x928; 0x92E; 0x938; 0x94D; 0x924; 0x947].

(** The session [main] starts for the direction Spanish to Hindi. *)
Definition session_es_hi : LiveTranslator := init (lit "es") (lit "hi").

(** A world whose translation backend answers [answer] to every request
    and whose audio stack answers [sound]. *)
Definition world_of (answer : outcome (option str)) (sound : outcome unit) : World :=
  mkWorld (fun _ _ _ => answer) (lit "12:00:00") (fun _ _ => sound).

(** ** Sessions *)

(** The language identifiers of the data model: the keys of the tables. *)
Definition known_lang (lang : str) : Prop :=
  lang = lit "es" \/ lang = lit "hi".

Definition valid_session (s : LiveTranslator) : Prop :=
  known_lang (source_lang s) /\ known_lang (target_lang s).

(** Every entry of the history carries the language pair of the session. *)
Definition history_invariant (s : LiveTranslator) : Prop :=
  Forall (fun entry =>
            entry_source_lang entry = source_lang s
            /\ entry_target_lang entry = target_lang s)
         (history s).

Definition color_of (lang : str) : str := default [] (LANG_COLOR !! lang).
Definition name_of (lang : str) : str := default [] (LANGUAGES !! lang).

(** The operations the front-end loops perform on a session. *)
Inductive operation :=
  | Process (w : World) (text : str)
  | ShowHistory.

Definition perform (op : operation) : M unit :=
  match op with
  | Process w text => process w text ;; ret tt
  | ShowHistory => _show_history
  end.

Fixpoint run_session (ops : list operation) : M unit :=
  match ops with
  | [] => ret tt
  | op :: rest => perform op ;; run_session rest
  end.

(** Projections of a run. *)
Definition result_of {A} (run : outcome A * LiveTranslator * list event) : outcome A :=
  run.1.1.
Definition state_of {A} (run : outcome A * LiveTranslator * list event) : LiveTranslator :=
  run.1.2.
Definition trace_of {A} (run : outcome A * LiveTranslator * list event) : list event :=
  run.2.

Definition is_translate_request (ev : event) : bool :=
  match ev with TranslateRequest _ _ _ => true | _ => false end.




(** The Devanagari block, and its independent vowel letters (the letters
    that stand for a vowel on their own, as opposed to the dependent
    signs written on a consonant). *)
Definition devanagari (c : char) : bool :=
  (0x900 <=? c) && (c <=? 0x97F).

Definition independent_vowel (c : char) : bool :=
  ((0x904 <=? c) && (c <=? 0x914)) || (c =? 0x960) || (c =? 0x961)
  || ((0x972 <=? c) && (c <=? 0x977)).

(** A Devanagari text (words separated by white space) without any
    independent vowel letter: its vowels, if any, are dependent signs. *)
Definition matra_only (text : str) : Prop :=
  Forall (fun c => py_isspace c || (devanagari c && negb (independent_vowel c)) = true)
         text.

(** The session after [entry] has been appended to its history. *)
Definition with_entry (s : LiveTranslator) (entry : ConversationEntry)
    : LiveTranslator :=
  mkTranslator (source_lang s) (target_lang s) (history s ++ [entry]).

(** The console line that echoes the source text, and the one that shows
    the translation. *)
Definition source_line (s : LiveTranslator) (text : str) : event :=
  ConsolePrint
    (language_line (0x0A :: lit "  ") (color_of (source_lang s))
       (name_of (source_lang s)) text).

Definition target_line (s : LiveTranslator) (translated : str) : event :=
  ConsolePrint
    (language_line (lit "  ") (color_of (target_lang s))
       (name_of (target_lang s)) translated).

Definition request_of (s : LiveTranslator) (text : str) : event :=
  TranslateRequest (source_lang s) (target_lang s) text.

Definition entry_of (w : World) (s : LiveTranslator) (text translated : str)
    : ConversationEntry :=
  mkEntry text translated (source_lang s) (target_lang s) (now w).

(** One rendered row of the history table. *)
Definition row_of (entry : ConversationEntry) : table_row :=
  (timestamp entry,
   lit "[" ++ color_of (entry_source_lang entry) ++ lit "]" ++ original entry
       ++ lit "[/" ++ color_of (entry_source_lang entry) ++ lit "]",
   lit "[" ++ color_of (entry_target_lang entry) ++ lit "]" ++ translated entry
       ++ lit "[/" ++ color_of (entry_target_lang entry) ++ lit "]").

(** ** Front ends

    The loops, [run] and [main] talk to the terminal and the microphone.
    What the user types and what the microphone captures are scripts:
    one [key] per call of [console.input], one [capture] per pass of the
    voice loop, each with the world in which the turn it starts is
    processed.  A [KeyboardInterrupt] is delivered while the program
    waits for a line or listens.  When a script is used up the program
    is [Pending]: it waits for input that does not come. *)

Inductive signal :=
  | Exception (e : exn)
  | KeyboardInterrupt
  | SystemExit (code : N).

Inductive ui_outcome (A : Type) :=
  | Done (a : A)
  | Abort (sig : signal)
  | Pending.
Arguments Done {A} a.
Arguments Abort {A} sig.
Arguments Pending {A}.

(** [console.print(Panel(...))] and [Panel.fit], the prompt of
    [console.input], and the calls to the [speech_recognition] library
    ([listen] with its [timeout] and [phrase_time_limit]). *)
Inductive ui_event :=
  | Core (ev : event)
  | PrintPanel (fit : bool) (body : str) (title : option str) (border_style : str)
  | ConsoleInput (prompt : str)
  | ImportSpeechRecognition
  | OpenMicrophone
  | AdjustForAmbientNoise
  | Listen (timeout phrase_time_limit : N)
  | RecognizeGoogle (language : str).

Inductive key :=
  | Typed (line : str) (w : World)
  | CtrlC
  | InputFails (e : exn).

(** One pass of the voice loop.  [sr.Microphone()] opens or fails;
    [recognizer.listen] yields audio, times out ([WaitTimeoutError]) or
    is interrupted by Ctrl+C; [recognizer.recognize_google] yields a
    transcript, does not understand ([UnknownValueError]) or cannot
    reach its service ([RequestError]). *)
Inductive recognition :=
  | Transcript (text : str) (w : World)
  | UnknownValue
  | RequestError (msg : str).

Inductive listened :=
  | WaitTimeout
  | Interrupted
  | Audio (r : recognition).

Inductive capture :=
  | MicFails (e : exn)
  | Captured (heard : listened).

Inductive control := Continue | Break.

Definition UI (A : Type) : Type :=
  LiveTranslator -> ui_outcome A * LiveTranslator * list ui_event.

Definition ui_ret {A} (a : A) : UI A := fun self => (Done a, self, []).

Definition ui_bind {A B} (m : UI A) (k : A -> UI B) : UI B :=
  fun self =>
    match m self with
    | (Done a, self', tr) =>
        match k a self' with
        | (r, self'', tr') => (r, self'', tr ++ tr')
        end
    | (Abort sig, self', tr) => (Abort sig, self', tr)
    | (Pending, self', tr) => (Pending, self', tr)
    end.

Definition abort {A} (sig : signal) : UI A := fun self => (Abort sig, self, []).

Definition pending {A} : UI A := fun self => (Pending, self, []).

Definition ui_emit (ev : ui_event) : UI unit := fun self => (Done tt, self, [ev]).

(** A method of the session called from a front end. *)
Definition lift {A} (m : M A) : UI A :=
  fun self =>
    match m self with
    | (Ok a, self', tr) => (Done a, self', map Core tr)
    | (Raised e, self', tr) => (Abort (Exception e), self', map Core tr)
    end.

(** [try: body except KeyboardInterrupt: handler] *)
Definition except_interrupt {A} (body handler : UI A) : UI A :=
  fun self =>
    match body self with
    | (Abort KeyboardInterrupt, self', tr) =>
        match handler self' with
        | (r, self'', tr') => (r, self'', tr ++ tr')
        end
    | run => run
    end.

Declare Scope ui_scope.
Delimit Scope ui_scope with ui.
Notation "x <- c ;; k" := (ui_bind c (fun x => k))
  (at level 100, c at next level, right associativity) : ui_scope.
Notation "c ;; k" := (ui_bind c (fun _ => k))
  (at level 100, right associativity) : ui_scope.
Open Scope ui_scope.

Definition ui_print (markup : str) : UI unit := ui_emit (Core (ConsolePrint markup)).

(** [console.input(prompt)] answered by [key]. *)
Definition console_input (prompt : str) (key : key) : UI (str * World) :=
  ui_emit (ConsoleInput prompt) ;;
  match key with
  | Typed line w => ui_ret (line, w)
  | CtrlC => abort KeyboardInterrupt
  | InputFails e => abort (Exception e)
  end.

(** [console.input(prompt)] when nothing more is typed. *)
Definition awaiting_input {A} (prompt : str) : UI A :=
  ui_emit (ConsoleInput prompt) ;; pending.

(** [str(n)] for a length. *)
Definition str_of_nat (n : nat) : str :=
  lit (NilZero.string_of_uint (Nat.to_uint n)).

Definition app_title : str :=
  lit "[bold blue]Live Conversation Translator[/bold blue]".

Definition tagged (color text : str) : str :=
  lit "[" ++ color ++ lit "]" ++ text ++ lit "[/" ++ color ++ lit "]".

Definition text_mode_panel (src_color src_name tgt_color tgt_name : str) : str :=
  lit "[bold]Text Mode[/bold]" ++ [0x0A]
  ++ [0x2022] ++ lit " Type in " ++ tagged src_color src_name
  ++ lit " " ++ [0x2192] ++ lit " spoken in " ++ tagged tgt_color tgt_name ++ [0x0A]
  ++ [0x2022] ++ lit " Commands: [bold]history[/bold] " ++ [0xB7]
  ++ lit " [bold]quit[/bold]".

Definition text_prompt : str := [0x0A] ++ lit "[bold blue]>[/bold blue] ".

Definition voice_mode_missing : str :=
  lit "[red]Voice mode requires: pip install SpeechRecognition pyaudio[/red]".

Definition voice_mode_panel (src_color src_name tgt_color tgt_name : str) : str :=
  lit "[bold]Voice Mode[/bold]" ++ [0x0A]
  ++ [0x2022] ++ lit " Speak in " ++ tagged src_color src_name
  ++ lit " " ++ [0x2192] ++ lit " spoken back in " ++ tagged tgt_color tgt_name
  ++ [0x0A]
  ++ [0x2022] ++ lit " Press [bold]Ctrl+C[/bold] to stop".

Definition listening (src_name : str) : str :=
  [0x0A] ++ lit "[bold green]Listening" ++ [0x2026] ++ lit "[/bold green] "
  ++ lit "[dim](speak in " ++ src_name ++ lit ")[/dim]".

Definition no_speech : str :=
  lit "[dim]No speech detected " ++ [0x2014] ++ lit " try again.[/dim]".

Definition recognising : str :=
  lit "[dim]Recognising" ++ [0x2026] ++ lit "[/dim]".

Definition not_understood : str :=
  lit "[yellow]Could not understand " ++ [0x2014]
  ++ lit " please try again.[/yellow]".

Definition speech_api_error (msg : str) : str :=
  lit "[red]Speech API error: " ++ msg ++ lit "[/red]".

Definition session_ended (count : nat) : str :=
  [0x0A] ++ lit "[dim]Session ended " ++ [0x2014] ++ lit " " ++ str_of_nat count
  ++ lit " translation(s) made.[/dim]".

Definition goodbye : str := [0x0A] ++ lit "[bold blue]Goodbye![/bold blue]".

Definition banner : str :=
  lit "[bold blue]Live Conversation Translator[/bold blue]" ++ [0x0A]
  ++ lit "[cyan]Spanish[/cyan] [bold]" ++ [0x2194]
  ++ lit "[/bold] [green]Hindi[/green]" ++ [0x0A]
  ++ lit "[dim]Powered by Google Translate (free)[/dim]".

Definition choice_prompt : str := [0x0A] ++ lit "Enter choice [1/2]: ".

Section FrontEnds.

(** [str.lower] *)
Variable lower : str -> str.

(** One pass of the loop of [run_text_mode], [key] being what
    [console.input] meets. *)
Definition text_turn (key : key) : UI control :=
  except_interrupt
    (answer <- console_input text_prompt key ;;
     let text := strip answer.1 in
     if bool_decide (text = []) then ui_ret Continue
     else if bool_decide (lower text ∈ [lit "quit"; lit "exit"; lit "q"])
     then ui_ret Break
     else if bool_decide (lower text = lit "history") then
       lift _show_history ;; ui_ret Continue
     else
       lift (process answer.2 text) ;; ui_ret Continue)
    (ui_ret Break).

Fixpoint text_loop (keys : list key) : UI unit :=
  match keys with
  | [] => awaiting_input text_prompt
  | key :: rest =>
      todo <- text_turn key ;;
      match todo with
      | Continue => text_loop rest
      | Break => ui_ret tt
      end
  end.

Definition run_text_mode (keys : list key) : UI unit :=
  self <- lift get_self ;;
  src_color <- lift (getitem LANG_COLOR (source_lang self)) ;;
  tgt_color <- lift (getitem LANG_COLOR (target_lang self)) ;;
  src_name <- lift (getitem LANGUAGES (source_lang self)) ;;
  tgt_name <- lift (getitem LANGUAGES (target_lang self)) ;;
  ui_emit (PrintPanel false
             (text_mode_panel src_color src_name tgt_color tgt_name)
             (Some app_title) (lit "blue")) ;;
  text_loop keys.

(** One pass of the loop of [run_voice_mode]. *)
Definition voice_turn (src_lang_code : str) (cap : capture) : UI control :=
  except_interrupt
    (self <- lift get_self ;;
     ui_emit OpenMicrophone ;;
     match cap with
     | MicFails e => abort (Exception e)
     | Captured heard =>
         src_name <- lift (getitem LANGUAGES (source_lang self)) ;;
         ui_print (listening src_name) ;;
         ui_emit AdjustForAmbientNoise ;;
         ui_emit (Listen 8 15) ;;
         match heard with
         | WaitTimeout => ui_print no_speech ;; ui_ret Continue
         | Interrupted => abort KeyboardInterrupt
         | Audio r =>
             ui_print recognising ;;
             ui_emit (RecognizeGoogle src_lang_code) ;;
             match r with
             | UnknownValue => ui_print not_understood ;; ui_ret Continue
             | RequestError msg =>
                 ui_print (speech_api_error msg) ;; ui_ret Continue
             | Transcript text w => lift (process w text) ;; ui_ret Continue
             end
         end
     end)
    (ui_ret Break).

Fixpoint voice_loop (src_lang_code : str) (caps : list capture) : UI unit :=
  match caps with
  | [] => pending
  | cap :: rest =>
      todo <- voice_turn src_lang_code cap ;;
      match todo with
      | Continue => voice_loop src_lang_code rest
      | Break => ui_ret tt
      end
  end.

(** [sr_installed] tells whether [import speech_recognition] succeeds. *)
Definition run_voice_mode (sr_installed : bool) (caps : list capture) : UI unit :=
  ui_emit ImportSpeechRecognition ;;
  if negb sr_installed then
    ui_print voice_mode_missing ;;
    abort (SystemExit 1)
  else
    self <- lift get_self ;;
    src_lang_code <- lift (getitem SR_LANG_CODE (source_lang self)) ;;
    src_color <- lift (getitem LANG_COLOR (source_lang self)) ;;
    tgt_color <- lift (getitem LANG_COLOR (target_lang self)) ;;
    src_name <- lift (getitem LANGUAGES (source_lang self)) ;;
    tgt_name <- lift (getitem LANGUAGES (target_lang self)) ;;
    ui_emit (PrintPanel false
               (voice_mode_panel src_color src_name tgt_color tgt_name)
               (Some app_title) (lit "blue")) ;;
    voice_loop src_lang_code caps.

Definition run (sr_installed : bool) (mode : str)
    (keys : list key) (caps : list capture) : UI unit :=
  (if bool_decide (mode = lit "voice") then run_voice_mode sr_installed caps
   else run_text_mode keys) ;;
  self <- lift get_self ;;
  ui_print (session_ended (length (history self))) ;;
  ui_print goodbye.

(** [console.input(choice_prompt)] in [main]: the line typed and the
    lines not yet read. *)
Definition ask_choice (keys : list key)
    : ui_outcome (str * list key) * list ui_event :=
  match keys with
  | [] => (Pending, [ConsoleInput choice_prompt])
  | Typed line _ :: rest => (Done (line, rest), [ConsoleInput choice_prompt])
  | CtrlC :: _ => (Abort KeyboardInterrupt, [ConsoleInput choice_prompt])
  | InputFails e :: _ => (Abort (Exception e), [ConsoleInput choice_prompt])
  end.

Definition direction_menu : list ui_event :=
  [PrintPanel true banner None (lit "blue");
   Core (ConsolePrint ([0x0A] ++ lit "Select translation direction:"));
   Core (ConsolePrint
           (lit "  [bold]1.[/bold] [cyan]Spanish[/cyan] " ++ [0x2192]
            ++ lit " [green]Hindi[/green]"));
   Core (ConsolePrint
           (lit "  [bold]2.[/bold] [green]Hindi[/green] " ++ [0x2192]
            ++ lit " [cyan]Spanish[/cyan]"))].

Definition mode_menu : list ui_event :=
  [Core (ConsolePrint ([0x0A] ++ lit "Select input mode:"));
   Core (ConsolePrint
           (lit "  [bold]1.[/bold] Text mode  " ++ [0x2014]
            ++ lit " type to translate"));
   Core (ConsolePrint
           (lit "  [bold]2.[/bold] Voice mode " ++ [0x2014]
            ++ lit " speak to translate"))].

(** [main]: the outcome, the session if one was constructed, and the
    trace. *)
Definition main (sr_installed : bool) (keys : list key) (caps : list capture)
    : ui_outcome unit * option LiveTranslator * list ui_event :=
  match ask_choice keys with
  | (Done (direction, keys), tr1) =>
      match ask_choice keys with
      | (Done (mode_choice, keys), tr2) =>
          match run sr_installed
                  (if bool_decide (strip mode_choice = lit "2") then lit "voice"
                   else lit "text")
                  keys caps (main_session direction) with
          | (r, translator, tr3) =>
              (r, Some translator,
               direction_menu ++ tr1 ++ mode_menu ++ tr2 ++ tr3)
          end
      | (Abort sig, tr2) =>
          (Abort sig, None, direction_menu ++ tr1 ++ mode_menu ++ tr2)
      | (Pending, tr2) =>
          (Pending, None, direction_menu ++ tr1 ++ mode_menu ++ tr2)
      end
  | (Abort sig, tr1) => (Abort sig, None, direction_menu ++ tr1)
  | (Pending, tr1) => (Pending, None, direction_menu ++ tr1)
  end.

End FrontEnds.

Close Scope ui_scope.

(** [str.lower] on ASCII text: the capital letters A to Z become small. *)
Definition ascii_lower (s : str) : str :=
  map (fun c => if (0x41 <=? c) && (c <=? 0x5A) then c + 0x20 else c) s.

(** The operations on the session that a script of typed lines stands
    for in text mode, up to the line that ends the loop. *)
Fixpoint operations_of_keys (lower : str -> str) (keys : list key)
    : list operation :=
  match keys with
  | [] => []
  | Typed line w :: rest =>
      let text := strip line in
      if bool_decide (text = []) then operations_of_keys lower rest
      else if bool_decide (lower text ∈ [lit "quit"; lit "exit"; lit "q"])
      then []
      else if bool_decide (lower text = lit "history")
      then ShowHistory :: operations_of_keys lower rest
      else Process w text :: operations_of_keys lower rest
  | _ :: _ => []
  end.

(** The operations a script of captures stands for in voice mode. *)
Fixpoint operations_of_captures (caps : list capture) : list operation :=
  match caps with
  | [] => []
  | Captured (Audio (Transcript text w)) :: rest =>
      Process w text :: operations_of_captures rest
  | Captured (Audio _) :: rest => operations_of_captures rest
  | Captured WaitTimeout :: rest => operations_of_captures rest
  | Captured Interrupted :: _ => []
  | MicFails _ :: _ => []
  end.

(** The events of the session's methods in a trace of a front end. *)
Definition core_events (tr : list ui_event) : list event :=
  omap (fun ev => match ev with Core ev => Some ev | _ => None end) tr.

Definition is_thread_start (ev : event) : bool :=
  match ev with ThreadStart _ _ => true | _ => false end.

Definition ui_result_of {A} (run : ui_outcome A * LiveTranslator * list ui_event)
    : ui_outcome A := run.1.1.
Definition ui_state_of {A} (run : ui_outcome A * LiveTranslator * list ui_event)
    : LiveTranslator := run.1.2.
Definition ui_trace_of {A} (run : ui_outcome A * LiveTranslator * list ui_event)
    : list ui_event := run.2.

(** ** Further notions for the properties below *)




Definition white_space (s : str) : Prop :=
  Forall (fun c => py_isspace c = true) s.

(** What holds of an entry recorded in a session from [source] to
    [target]: it carries the pair, both languages have a colour, its
    original text is trimmed and passed the filter, its translation is
    not empty. *)
Definition entry_ok (source target : str) (entry : ConversationEntry) : Prop :=
  entry_source_lang entry = source
  /\ entry_target_lang entry = target
  /\ LANG_COLOR !! source = Some (color_of source)
  /\ LANG_COLOR !! target = Some (color_of target)
  /\ strip (original entry) = original entry
  /\ _looks_like_speech (original entry) = true
  /\ translated entry <> [].

(** A key that ends the loop of text mode: Ctrl+C, or a line that reads
    "quit", "exit" or "q" once trimmed and put in lower case. *)
Definition stops (lower : str -> str) (key : key) : Prop :=
  match key with
  | CtrlC => True
  | Typed line _ =>
      strip line <> []
      /\ lower (strip line) ∈ [lit "quit"; lit "exit"; lit "q"]
  | InputFails _ => False
  end.

Definition code_of (lang : str) : str := default [] (SR_LANG_CODE !! lang).

(** The languages asked of the recognition service in a trace. *)
Definition recognitions (tr : list ui_event) : list str :=
  omap (fun ev => match ev with RecognizeGoogle language => Some language
                            | _ => None end) tr.

Definition is_console_print (ev : event) : bool :=
  match ev with
  | ConsolePrint _ | ConsolePrintTable _ _ => true
  | _ => false
  end.

(** The events of a trace other than console output: requests to the
    translation service and to the audio stack, and thread starts. *)
Definition effects (tr : list event) : list event :=
  List.filter (fun ev => negb (is_console_print ev)) tr.

(** What the voice loop prints and does before it knows what was said,
    and before it asks for a transcript. *)
Definition voice_opening (s : LiveTranslator) : list ui_event :=
  [OpenMicrophone; Core (ConsolePrint (listening (name_of (source_lang s))));
   AdjustForAmbientNoise; Listen 8 15].

Definition voice_asking (s : LiveTranslator) (src_lang_code : str)
    : list ui_event :=
  voice_opening s
  ++ [Core (ConsolePrint recognising); RecognizeGoogle src_lang_code].

(** Projections of a run of [main]. *)
Definition main_outcome
    (run : ui_outcome unit * option LiveTranslator * list ui_event)
    : ui_outcome unit := run.1.1.
Definition main_translator
    (run : ui_outcome unit * option LiveTranslator * list ui_event)
    : option LiveTranslator := run.1.2.
Definition main_trace
    (run : ui_outcome unit * option LiveTranslator * list ui_event)
    : list ui_event := run.2.

(** ** Small cases *)

Example looks_hola : _looks_like_speech hola = true.
Proof. vm_compute. reflexivity. Qed.

Example looks_namaste : _looks_like_speech namaste = false.
Proof. vm_compute. reflexivity. Qed.

Example color_es : LANG_COLOR !! lit "es" = Some (lit "cyan").
Proof. vm_compute. reflexivity. Qed.

Example color_fr : LANG_COLOR !! lit "fr" = None.
Proof. vm_compute. reflexivity. Qed.

Example unknown_language_raises :
  process (world_of (Ok (Some namaste)) (Ok tt)) hola (init (lit "fr") (lit "hi"))
  = (Raised (KeyError (lit "fr")), init (lit "fr") (lit "hi"), []).
Proof. vm_compute. reflexivity. Qed.

Example strip_spaces : strip (0x09 :: lit "  hola " ++ [0x0A]) = hola.
Proof. vm_compute. reflexivity. Qed.

(** The known languages are the keys of both tables. *)
Lemma known_lang_color (lang : str) :
  known_lang lang <-> lang ∈ dom LANG_COLOR.
Proof.
  unfold LANG_COLOR, known_lang.
  rewrite !dom_insert_L, dom_empty_L, !elem_of_union, !elem_of_singleton,
    elem_of_empty.
  tauto.
Qed.

Lemma known_lang_name (lang : str) :
  known_lang lang <-> lang ∈ dom LANGUAGES.
Proof.
  unfold LANGUAGES, known_lang.
  rewrite !dom_insert_L, dom_empty_L, !elem_of_union, !elem_of_singleton,
    elem_of_empty.
  tauto.
Qed.

(** Every session [main] constructs is over the configured languages. *)
Lemma main_session_valid (direction : str) :
  valid_session (main_session direction).
Proof.
  unfold main_session, select_direction.
  case_bool_decide; split; unfold known_lang; cbn; auto.
Qed.

(** ** The filter *)

Lemma looks_like_speech_true (text : str) :
  _looks_like_speech text = true <->
  (2 <= length text)%nat /\ exists ch, ch ∈ text /\ ch ∈ vowels.
Proof.
  unfold _looks_like_speech.
  destruct (Nat.ltb_spec (length text) 2) as [Hlt | Hge].
  - split; [discriminate | intros [Hlen _]; lia].
  - rewrite existsb_exists. split.
    + intros (ch & Hin & Hv). split; [exact Hge |].
      exists ch. split; [by apply list_elem_of_In |].
      by apply bool_decide_eq_true in Hv.
    + intros (_ & ch & Hin & Hv). exists ch.
      split; [by apply list_elem_of_In |]. by apply bool_decide_eq_true.
Qed.

Lemma looks_like_speech_short (text : str) :
  (length text < 2)%nat -> _looks_like_speech text = false.
Proof.
  intros Hlen. unfold _looks_like_speech.
  destruct (Nat.ltb_spec (length text) 2); [reflexivity | lia].
Qed.

Lemma looks_like_speech_no_vowel (text : str) :
  (forall ch, ch ∈ text -> ch ∉ vowels) -> _looks_like_speech text = false.
Proof.
  intros Hnone. destruct (_looks_like_speech text) eqn:Hl; [| reflexivity].
  apply looks_like_speech_true in Hl as (_ & ch & Hin & Hv).
  exfalso. exact (Hnone ch Hin Hv).
Qed.

(** ** Running [process] *)

Lemma process_empty (w : World) (text : str) (s : LiveTranslator) :
  strip text = [] -> process w text s = (Ok None, s, []).
Proof.
  intros Hempty. unfold process. rewrite Hempty.
  rewrite bool_decide_eq_true_2 by reflexivity. reflexivity.
Qed.

Lemma process_noise (w : World) (text : str) (s : LiveTranslator) :
  strip text <> [] ->
  _looks_like_speech (strip text) = false ->
  process w text s
  = (Ok None, s, [ConsolePrint (skipping_noise (strip text))]).
Proof.
  intros Hne Hnoise. unfold process.
  rewrite bool_decide_eq_false_2 by exact Hne.
  rewrite Hnoise. reflexivity.
Qed.

Lemma known_lang_tables (lang : str) :
  known_lang lang ->
  LANG_COLOR !! lang = Some (color_of lang)
  /\ LANGUAGES !! lang = Some (name_of lang).
Proof.
  intros [-> | ->]; split; vm_compute; reflexivity.
Qed.

Lemma translate_run (w : World) (text : str) (s : LiveTranslator) :
  translate w text s
  = match google_translate w (source_lang s) (target_lang s) text with
    | Ok result =>
        (Ok (or_empty result), s,
         [TranslateRequest (source_lang s) (target_lang s) text])
    | Raised e =>
        (Ok [], s,
         [TranslateRequest (source_lang s) (target_lang s) text;
          ConsolePrint (translation_error e)])
    end.
Proof.
  unfold translate, try_except, bind, get_self, external, ret, console_print, emit.
  destruct (google_translate w (source_lang s) (target_lang s) text);
    reflexivity.
Qed.


(** Whatever the session and the world, [process] keeps the language
    pair and either leaves the history alone or appends one entry built
    from the trimmed text. *)
Lemma process_state (w : World) (text : str) (s : LiveTranslator) :
  state_of (process w text s) = s
  \/ exists translated,
       translated <> []
       /\ state_of (process w text s)
          = with_entry s (entry_of w s (strip text) translated).
Proof.
  remember (process w text s) as run eqn:Hrun.
  unfold process in Hrun.
  case_bool_decide as Hempty; [left; by subst run |].
  destruct (_looks_like_speech (strip text)); [| left; by subst run].
  cbn [negb] in Hrun. unfold bind at 1 in Hrun. unfold get_self at 1 in Hrun.
  unfold bind at 1 in Hrun. unfold getitem at 1 in Hrun.
  destruct (LANG_COLOR !! source_lang s) as [src_color |];
    [| left; by subst run].
  unfold ret at 1 in Hrun.
  unfold bind at 1 in Hrun. unfold getitem at 1 in Hrun.
  destruct (LANG_COLOR !! target_lang s) as [tgt_color |];
    [| left; by subst run].
  unfold ret at 1 in Hrun.
  unfold bind at 1 in Hrun. unfold getitem at 1 in Hrun.
  destruct (LANGUAGES !! source_lang s) as [src_name |];
    [| left; by subst run].
  unfold ret at 1 in Hrun.
  unfold bind at 1 in Hrun. unfold console_print at 1, emit at 1 in Hrun.
  unfold bind at 1 in Hrun. rewrite translate_run in Hrun.
  destruct (google_translate w (source_lang s) (target_lang s) (strip text))
    as [result | e].
  - case_bool_decide as Hr; [left; by subst run |].
    unfold bind at 1 in Hrun. unfold getitem at 1 in Hrun.
    destruct (LANGUAGES !! target_lang s) as [tgt_name |];
      [| left; by subst run].
    right. exists (or_empty result). split; [exact Hr | by subst run].
  - rewrite bool_decide_eq_true_2 in Hrun by reflexivity. left. by subst run.
Qed.


Lemma history_rows_state (entries : list ConversationEntry) (s : LiveTranslator) :
  state_of (history_rows entries s) = s.
Proof.
  induction entries as [| entry rest IH]; [reflexivity |].
  cbn [history_rows]. unfold bind at 1. unfold getitem at 1.
  destruct (LANG_COLOR !! entry_source_lang entry); [| reflexivity].
  unfold ret at 1. unfold bind at 1. unfold getitem at 1.
  destruct (LANG_COLOR !! entry_target_lang entry); [| reflexivity].
  unfold ret at 1. unfold bind at 1.
  destruct (history_rows rest s) as [[[rows | e] s'] tr];
    unfold state_of in *; simpl in *; exact IH.
Qed.

Lemma show_history_state (s : LiveTranslator) :
  state_of (_show_history s) = s.
Proof.
  unfold _show_history. unfold bind at 1. unfold get_self at 1.
  destruct (history s) as [| entry rest] eqn:Hh; [reflexivity |].
  unfold bind at 1.
  pose proof (history_rows_state (entry :: rest) s) as Hrows.
  destruct (history_rows (entry :: rest) s) as [[[rows | e] s'] tr];
    unfold state_of in *; simpl in *; exact Hrows.
Qed.


(** ** The invariant *)

Lemma perform_state (op : operation) (s : LiveTranslator) :
  history_invariant s ->
  let s' := state_of (perform op s) in
  source_lang s' = source_lang s
  /\ target_lang s' = target_lang s
  /\ history_invariant s'.
Proof.
  intros Hinv. destruct op as [w text |]; cbn [perform].
  - assert (Hst : state_of ((process w text;; ret tt) s)
                  = state_of (process w text s)).
    { unfold bind. destruct (process w text s) as [[[r | e] s'] tr];
        reflexivity. }
    cbv zeta. rewrite Hst.
    destruct (process_state w text s) as [-> | (r & _ & ->)].
    + auto.
    + split; [reflexivity |]. split; [reflexivity |].
      unfold history_invariant, with_entry. cbn [history source_lang target_lang].
      apply Forall_app. split; [exact Hinv |].
      constructor; [| constructor]. split; reflexivity.
  - cbv zeta. rewrite show_history_state. auto.
Qed.

Lemma run_session_state (ops : list operation) (s : LiveTranslator) :
  history_invariant s ->
  let s' := state_of (run_session ops s) in
  source_lang s' = source_lang s
  /\ target_lang s' = target_lang s
  /\ history_invariant s'.
Proof.
  revert s. induction ops as [| op rest IH]; intros s Hinv.
  - cbn. auto.
  - destruct (perform_state op s Hinv) as (Hs & Ht & Hi).
    cbn [run_session]. cbv zeta. unfold bind.
    destruct (perform op s) as [[[u | e] s1] tr1] eqn:Hop;
      unfold state_of in *; cbn in Hs, Ht, Hi |- *.
    + specialize (IH s1 Hi). cbv zeta in IH.
      destruct (run_session rest s1) as [[r2 s2] tr2].
      unfold state_of in IH. cbn in IH |- *.
      destruct IH as (Hs2 & Ht2 & Hi2).
      rewrite Hs2, Ht2. auto.
    + auto.
Qed.

Lemma process_then_ret_state (w : World) (text : str) (s : LiveTranslator) :
  state_of (perform (Process w text) s) = state_of (process w text s).
Proof.
  cbn [perform]. unfold bind.
  destruct (process w text s) as [[[r | e] s'] tr]; reflexivity.
Qed.



(** ** Trimming *)

Lemma lstrip_suffix (s : str) : exists pre, s = pre ++ lstrip s.
Proof.
  induction s as [| c rest [pre IH]]; [by exists [] |].
  cbn [lstrip]. destruct (py_isspace c).
  - exists (c :: pre). cbn. by rewrite <- IH.
  - by exists [].
Qed.

Lemma elem_of_lstrip (ch : char) (s : str) : ch ∈ lstrip s -> ch ∈ s.
Proof.
  intros Hin. destruct (lstrip_suffix s) as [pre Hs]. rewrite Hs.
  apply elem_of_app. by right.
Qed.

Lemma elem_of_strip (ch : char) (s : str) : ch ∈ strip s -> ch ∈ s.
Proof.
  unfold strip, rstrip. intros Hin.
  rewrite elem_of_reverse in Hin. apply elem_of_lstrip in Hin.
  rewrite elem_of_reverse in Hin. by apply elem_of_lstrip.
Qed.

(** ** Properties of the turn processor *)

(** C8. An input that trims to the empty string makes [process] return
    [None] with no effect at all: the session is unchanged and nothing is
    emitted (no "skipped" notification, no translation request, no
    output, no history entry). *)
Theorem process_blank_is_silent (w : World) (s : LiveTranslator) (text : str) :
  strip text = [] ->
  process w text s = (Ok None, s, []).
Proof. apply process_empty. Qed.

Lemma process_blank_is_silent_witness :
  process (world_of (Ok (Some namaste)) (Ok tt)) (lit "   ") session_es_hi
  = (Ok None, session_es_hi, []).
Proof.
  apply (process_blank_is_silent
           (world_of (Ok (Some namaste)) (Ok tt)) session_es_hi (lit "   ")).
  vm_compute. reflexivity.
Defined.

(** C5. When the trimmed input is shorter than 2 characters, [process]
    returns [None], sends no request to the translation service and
    leaves the session (hence its history) unchanged. *)
Theorem process_short_is_rejected (w : World) (s : LiveTranslator) (text : str) :
  (length (strip text) < 2)%nat ->
  result_of (process w text s) = Ok None
  /\ state_of (process w text s) = s
  /\ history (state_of (process w text s)) = history s
  /\ existsb is_translate_request (trace_of (process w text s)) = false.
Proof.
  intros Hlen. destruct (decide (strip text = [])) as [Hempty | Hne].
  - rewrite (process_empty w text s Hempty). auto.
  - rewrite (process_noise w text s Hne (looks_like_speech_short _ Hlen)).
    auto.
Qed.

Lemma process_short_is_rejected_witness :
  result_of (process (world_of (Ok (Some namaste)) (Ok tt)) (lit " a ") session_es_hi)
  = Ok None
  /\ state_of (process (world_of (Ok (Some namaste)) (Ok tt)) (lit " a ") session_es_hi)
     = session_es_hi
  /\ history (state_of (process (world_of (Ok (Some namaste)) (Ok tt)) (lit " a ")
                          session_es_hi))
     = history session_es_hi
  /\ existsb is_translate_request
       (trace_of (process (world_of (Ok (Some namaste)) (Ok tt)) (lit " a ")
                    session_es_hi))
     = false.
Proof.
  apply (process_short_is_rejected
           (world_of (Ok (Some namaste)) (Ok tt)) session_es_hi (lit " a ")).
  vm_compute. lia.
Defined.





(** ** What reaches the console *)












(** ** Speech *)




(** C3. Whatever operations a session performs after its construction,
    its language pair is the one it was constructed with, and every
    entry of its history carries that pair. *)
Theorem session_keeps_language_pair
    (source target : str) (ops : list operation) :
  source_lang (state_of (run_session ops (init source target))) = source
  /\ target_lang (state_of (run_session ops (init source target))) = target
  /\ Forall (fun entry =>
               entry_source_lang entry = source
               /\ entry_target_lang entry = target)
            (history (state_of (run_session ops (init source target)))).
Proof.
  assert (Hinit : history_invariant (init source target)) by constructor.
  destruct (run_session_state ops (init source target) Hinit)
    as (Hs & Ht & Hinv).
  split; [exact Hs |]. split; [exact Ht |].
  unfold history_invariant in Hinv. rewrite Hs, Ht in Hinv. exact Hinv.
Qed.

(** ** The history *)




(** ** The allow-list and Devanagari text *)

Lemma elem_of_vowels (ch : char) : ch ∈ vowels <-> ch ∈ vowel_letters.
Proof. unfold vowels. apply elem_of_list_to_set. Qed.

Lemma matra_only_no_vowel (text : str) :
  matra_only text -> forall ch, ch ∈ text -> ch ∉ vowels.
Proof.
  intros Hm ch Hin Hv.
  unfold matra_only in Hm. rewrite Forall_forall in Hm.
  specialize (Hm ch Hin). apply elem_of_vowels in Hv.
  unfold vowel_letters in Hv.
  repeat (apply elem_of_cons in Hv as [-> | Hv]; [discriminate Hm |]).
  by apply elem_of_nil in Hv.
Qed.

(** C10. The allow-list holds exactly 20 characters: the Latin vowels in
    both cases and ten Devanagari independent vowel letters.  A
    Devanagari text without independent vowel letters (its vowels are
    written as dependent signs) therefore holds no allow-listed
    character, and [process] rejects it: it returns [None] and the
    session, hence the history, is unchanged.  "नमस्ते" is such a text and
    is skipped as noise. *)
Theorem matra_only_text_is_noise
    (w : World) (s : LiveTranslator) (text : str) :
  matra_only text ->
  size vowels = 20%nat
  /\ (forall ch, ch ∈ vowels <-> ch ∈ vowel_letters)
  /\ (forall ch, ch ∈ vowels ->
        devanagari ch = true -> independent_vowel ch = true)
  /\ (forall ch, ch ∈ text -> ch ∉ vowels)
  /\ result_of (process w text s) = Ok None
  /\ state_of (process w text s) = s
  /\ history (state_of (process w text s)) = history s
  /\ matra_only namaste
  /\ process w namaste s
     = (Ok None, s, [ConsolePrint (skipping_noise namaste)]).
Proof.
  intros Hm.
  split; [vm_compute; reflexivity |].
  split; [apply elem_of_vowels |].
  split.
  { intros ch Hv Hd. apply elem_of_vowels in Hv. unfold vowel_letters in Hv.
    repeat (apply elem_of_cons in Hv as [-> | Hv];
            [first [discriminate Hd | reflexivity] |]).
    by apply elem_of_nil in Hv. }
  split; [by apply matra_only_no_vowel |].
  assert (Hrun : process w text s = (Ok None, s, [])
                 \/ process w text s
                    = (Ok None, s, [ConsolePrint (skipping_noise (strip text))])).
  { destruct (decide (strip text = [])) as [Hempty | Hne].
    - left. by apply process_empty.
    - right. apply process_noise; [exact Hne |].
      apply looks_like_speech_no_vowel. intros ch Hin.
      apply (matra_only_no_vowel text Hm). by apply elem_of_strip. }
  split; [destruct Hrun as [-> | ->]; reflexivity |].
  split; [destruct Hrun as [-> | ->]; reflexivity |].
  split; [destruct Hrun as [-> | ->]; reflexivity |].
  split; [repeat constructor |].
  apply (process_noise w namaste s); [discriminate |].
  vm_compute. reflexivity.
Qed.

Lemma matra_only_text_is_noise_witness :
  process (world_of (Ok (Some hola)) (Ok tt)) namaste session_es_hi
  = (Ok None, session_es_hi, [ConsolePrint (skipping_noise namaste)]).
Proof.
  assert (Hm : matra_only namaste) by (repeat constructor).
  destruct (matra_only_text_is_noise
              (world_of (Ok (Some hola)) (Ok tt)) session_es_hi namaste Hm)
    as (_ & _ & _ & _ & _ & _ & _ & _ & Hrun).
  exact Hrun.
Defined.

(** ** More on the methods *)

Lemma or_empty_cons (result : option str) (c : char) (r : str) :
  or_empty result = c :: r -> result = Some (c :: r).
Proof.
  destruct result as [[| c' r'] |]; unfold or_empty; intros Heq;
    first [discriminate Heq | by rewrite Heq].
Qed.

(** Every run of [process], in any session: either the session is left
    as it was, no thread is started and no entry is returned, or the
    text passed the filter, all four table lookups succeeded, the
    service answered a non-empty string and the turn is recorded. *)
Lemma process_cases (w : World) (text : str) (s : LiveTranslator) :
  (state_of (process w text s) = s
   /\ List.filter is_thread_start (trace_of (process w text s)) = []
   /\ forall entry, result_of (process w text s) <> Ok (Some entry))
  \/ exists c r,
       _looks_like_speech (strip text) = true
       /\ google_translate w (source_lang s) (target_lang s) (strip text)
          = Ok (Some (c :: r))
       /\ LANG_COLOR !! source_lang s = Some (color_of (source_lang s))
       /\ LANG_COLOR !! target_lang s = Some (color_of (target_lang s))
       /\ process w text s
          = (Ok (Some (entry_of w s (strip text) (c :: r))),
             with_entry s (entry_of w s (strip text) (c :: r)),
             [source_line s (strip text); request_of s (strip text);
              target_line s (c :: r); ConsolePrint speaking_notice;
              ThreadStart (c :: r) (target_lang s)]).
Proof.
  remember (process w text s) as run eqn:Hrun.
  unfold process in Hrun.
  case_bool_decide as Hempty;
    [left; subst run; repeat split; discriminate |].
  destruct (_looks_like_speech (strip text)) eqn:Hlooks;
    [| left; subst run; repeat split; discriminate].
  cbn [negb] in Hrun. unfold bind at 1 in Hrun. unfold get_self at 1 in Hrun.
  unfold bind at 1 in Hrun. unfold getitem at 1 in Hrun.
  unfold source_line, target_line, color_of, name_of.
  destruct (LANG_COLOR !! source_lang s) as [src_color |];
    [| left; subst run; repeat split; discriminate].
  unfold ret at 1 in Hrun.
  unfold bind at 1 in Hrun. unfold getitem at 1 in Hrun.
  destruct (LANG_COLOR !! target_lang s) as [tgt_color |];
    [| left; subst run; repeat split; discriminate].
  unfold ret at 1 in Hrun.
  unfold bind at 1 in Hrun. unfold getitem at 1 in Hrun.
  destruct (LANGUAGES !! source_lang s) as [src_name |];
    [| left; subst run; repeat split; discriminate].
  unfold ret at 1 in Hrun.
  unfold bind at 1 in Hrun. unfold console_print at 1, emit at 1 in Hrun.
  unfold bind at 1 in Hrun. rewrite translate_run in Hrun.
  destruct (google_translate w (source_lang s) (target_lang s) (strip text))
    as [result | e].
  - destruct (or_empty result) as [| c r] eqn:Hr.
    + rewrite bool_decide_eq_true_2 in Hrun by reflexivity.
      left; subst run; repeat split; discriminate.
    + rewrite bool_decide_eq_false_2 in Hrun by discriminate.
      unfold bind at 1 in Hrun. unfold getitem at 1 in Hrun.
      destruct (LANGUAGES !! target_lang s) as [tgt_name |];
        [| left; subst run; repeat split; discriminate].
      right. exists c, r. apply or_empty_cons in Hr as ->.
      subst run. repeat split.
  - rewrite bool_decide_eq_true_2 in Hrun by reflexivity.
    left; subst run; repeat split; discriminate.
Qed.

(** ** More on trimming *)

Lemma lstrip_split (s : str) :
  exists pre, Forall (fun c => py_isspace c = true) pre /\ s = pre ++ lstrip s.
Proof.
  induction s as [| c rest (pre & Hpre & IH)]; [by exists [] |].
  cbn [lstrip]. destruct (py_isspace c) eqn:Hc.
  - exists (c :: pre). split; [by constructor |]. cbn. by rewrite <- IH.
  - by exists [].
Qed.

Lemma lstrip_app_space (pre t : str) :
  Forall (fun c => py_isspace c = true) pre -> lstrip (pre ++ t) = lstrip t.
Proof.
  induction 1 as [| c pre Hc _ IH]; [reflexivity |].
  cbn [app lstrip]. by rewrite Hc.
Qed.

Lemma lstrip_all_space (s : str) :
  Forall (fun c => py_isspace c = true) s -> lstrip s = [].
Proof.
  intros Hs. rewrite <- (app_nil_r s). by rewrite lstrip_app_space.
Qed.

Lemma lstrip_head (s : str) (c : char) (r : str) :
  lstrip s = c :: r -> py_isspace c = false.
Proof.
  induction s as [| c' rest IH]; [discriminate |].
  cbn [lstrip]. destruct (py_isspace c') eqn:Hc; [exact IH |].
  intros Heq. injection Heq as -> _. exact Hc.
Qed.

Lemma rstrip_split (s : str) :
  exists post, Forall (fun c => py_isspace c = true) post /\ s = rstrip s ++ post.
Proof.
  destruct (lstrip_split (reverse s)) as (pre & Hpre & Hs).
  exists (reverse pre). split; [by apply Forall_reverse |].
  unfold rstrip. rewrite <- reverse_app, <- Hs. by rewrite reverse_involutive.
Qed.

Lemma rstrip_app_space (t post : str) :
  Forall (fun c => py_isspace c = true) post -> rstrip (t ++ post) = rstrip t.
Proof.
  intros Hpost. unfold rstrip. rewrite reverse_app.
  rewrite lstrip_app_space; [reflexivity | by apply Forall_reverse].
Qed.

Lemma strip_app_space (t post : str) :
  Forall (fun c => py_isspace c = true) post -> strip (t ++ post) = strip t.
Proof.
  intros Hpost. unfold strip.
  induction t as [| c t IH].
  - cbn [app]. rewrite (lstrip_all_space post Hpost). reflexivity.
  - cbn [app lstrip]. destruct (py_isspace c); [exact IH |].
    by rewrite app_comm_cons, rstrip_app_space.
Qed.

Lemma strip_padding (pre text post : str) :
  Forall (fun c => py_isspace c = true) pre ->
  Forall (fun c => py_isspace c = true) post ->
  strip (pre ++ text ++ post) = strip text.
Proof.
  intros Hpre Hpost. rewrite <- (strip_app_space text post Hpost).
  unfold strip. by rewrite lstrip_app_space.
Qed.

Lemma strip_split (s : str) :
  exists pre post,
    Forall (fun c => py_isspace c = true) pre
    /\ Forall (fun c => py_isspace c = true) post
    /\ s = pre ++ strip s ++ post.
Proof.
  destruct (lstrip_split s) as (pre & Hpre & Hs).
  destruct (rstrip_split (lstrip s)) as (post & Hpost & Ht).
  exists pre, post. split; [exact Hpre |]. split; [exact Hpost |].
  unfold strip. by rewrite <- Ht.
Qed.

Lemma strip_idempotent (s : str) : strip (strip s) = strip s.
Proof.
  destruct (strip_split s) as (pre & post & Hpre & Hpost & Hs).
  rewrite Hs at 2. by rewrite strip_padding.
Qed.

(** ** Properties of [translate], [speak] and [process] *)









(** X5. When a language of the session has no colour in [LANG_COLOR], a
    text that passes the filter makes [process] raise [KeyError] for
    that language (the source language first) before anything is
    printed or requested, and the session is unchanged. *)
Theorem process_unknown_language (w : World) (text : str) (s : LiveTranslator) :
  _looks_like_speech (strip text) = true ->
  LANG_COLOR !! source_lang s = None \/ LANG_COLOR !! target_lang s = None ->
  process w text s
  = (Raised (KeyError (match LANG_COLOR !! source_lang s with
                       | None => source_lang s
                       | Some _ => target_lang s
                       end)),
     s, []).
Proof.
  intros Hlooks Hmissing.
  assert (Hne : strip text <> []).
  { apply looks_like_speech_true in Hlooks as [Hlen _].
    intros Heq. rewrite Heq in Hlen. simpl in Hlen. lia. }
  unfold process.
  rewrite bool_decide_eq_false_2 by exact Hne.
  rewrite Hlooks. cbn [negb].
  unfold bind at 1. unfold get_self at 1.
  unfold bind at 1. unfold getitem at 1.
  destruct (LANG_COLOR !! source_lang s) as [src_color |]; [| reflexivity].
  unfold ret at 1. unfold bind at 1. unfold getitem at 1.
  destruct Hmissing as [Hmissing | ->]; [discriminate Hmissing | reflexivity].
Qed.

Lemma process_unknown_language_witness :
  process (world_of (Ok (Some namaste)) (Ok tt)) hola (init (lit "es") (lit "fr"))
  = (Raised (KeyError (lit "fr")), init (lit "es") (lit "fr"), []).
Proof.
  apply (process_unknown_language
           (world_of (Ok (Some namaste)) (Ok tt)) hola (init (lit "es") (lit "fr"))).
  - vm_compute. reflexivity.
  - right. vm_compute. reflexivity.
Defined.



(** X7. In any session, [process] starts the speech thread exactly when
    it returns an entry, once, for the translation of that entry and the
    target language of the session: no speech without a recorded turn,
    no recorded turn without speech. *)
Theorem process_speaks_what_it_records
    (w : World) (text : str) (s : LiveTranslator) :
  List.filter is_thread_start (trace_of (process w text s))
  = match result_of (process w text s) with
    | Ok (Some entry) => [ThreadStart (translated entry) (target_lang s)]
    | _ => []
    end.
Proof.
  destruct (process_cases w text s)
    as [(_ & Hquiet & Hnone) | (c & r & _ & _ & _ & _ & ->)].
  - rewrite Hquiet.
    destruct (result_of (process w text s)) as [[entry |] | e];
      [| reflexivity | reflexivity].
    exfalso. by apply (Hnone entry).
  - reflexivity.
Qed.

(** X9. White space around the text does not matter to [process]: the
    run on a padded text is the run on the text itself. *)
Theorem process_ignores_padding
    (w : World) (s : LiveTranslator) (pre text post : str) :
  white_space pre ->
  white_space post ->
  process w (pre ++ text ++ post) s = process w text s.
Proof.
  intros Hpre Hpost. unfold process.
  by rewrite (strip_padding pre text post Hpre Hpost).
Qed.

Lemma process_ignores_padding_witness :
  process (world_of (Ok (Some namaste)) (Ok tt))
          ([0x09; 0x20] ++ hola ++ [0x20; 0x0A; 0x3000]) session_es_hi
  = process (world_of (Ok (Some namaste)) (Ok tt)) hola session_es_hi.
Proof.
  apply (process_ignores_padding
           (world_of (Ok (Some namaste)) (Ok tt)) session_es_hi
           [0x09; 0x20] hola [0x20; 0x0A; 0x3000]).
  - repeat constructor.
  - repeat constructor.
Defined.

(** ** What a session records *)

Lemma history_rows_colored
    (entries : list ConversationEntry) (s : LiveTranslator) :
  Forall (fun entry =>
            LANG_COLOR !! entry_source_lang entry
            = Some (color_of (entry_source_lang entry))
            /\ LANG_COLOR !! entry_target_lang entry
               = Some (color_of (entry_target_lang entry))) entries ->
  history_rows entries s = (Ok (map row_of entries), s, []).
Proof.
  induction 1 as [| entry rest [Hsc Htc] _ IH]; [reflexivity |].
  cbn [history_rows]. unfold bind, getitem.
  rewrite Hsc, Htc. cbn [ret]. rewrite IH. reflexivity.
Qed.

Lemma perform_entries_ok (op : operation) (s : LiveTranslator) :
  Forall (entry_ok (source_lang s) (target_lang s)) (history s) ->
  source_lang (state_of (perform op s)) = source_lang s
  /\ target_lang (state_of (perform op s)) = target_lang s
  /\ Forall (entry_ok (source_lang s) (target_lang s))
            (history (state_of (perform op s))).
Proof.
  intros Hok. destruct op as [w text |].
  - rewrite process_then_ret_state.
    destruct (process_cases w text s)
      as [(-> & _ & _) | (c & r & Hlooks & _ & Hsc & Htc & ->)]; [auto |].
    split; [reflexivity |]. split; [reflexivity |].
    unfold state_of. cbn. apply Forall_app. split; [exact Hok |].
    constructor; [| constructor].
    unfold entry_ok, entry_of. cbn.
    do 4 (split; [done |]). split; [apply strip_idempotent |].
    split; [exact Hlooks | discriminate].
  - cbn [perform]. rewrite show_history_state. auto.
Qed.

Lemma run_session_entries_ok (ops : list operation) (s : LiveTranslator) :
  Forall (entry_ok (source_lang s) (target_lang s)) (history s) ->
  source_lang (state_of (run_session ops s)) = source_lang s
  /\ target_lang (state_of (run_session ops s)) = target_lang s
  /\ Forall (entry_ok (source_lang s) (target_lang s))
            (history (state_of (run_session ops s))).
Proof.
  revert s. induction ops as [| op rest IH]; intros s Hok; [by cbn |].
  destruct (perform_entries_ok op s Hok) as (Hs & Ht & Hi).
  cbn [run_session]. unfold bind.
  destruct (perform op s) as [[[u | e] s1] tr1];
    unfold state_of in *; cbn in Hs, Ht, Hi |- *; [| auto].
  rewrite <- Hs, <- Ht in Hi. specialize (IH s1 Hi).
  destruct (run_session rest s1) as [[r2 s2] tr2].
  unfold state_of in IH. cbn in IH |- *.
  rewrite Hs, Ht in IH. exact IH.
Qed.

(** X8. Whatever the language pair given to the constructor and
    whatever operations follow, every entry of the history holds a
    trimmed original text that passed the filter (at least two
    characters, one of them an allow-listed vowel) and a non-empty
    translation. *)
Theorem recorded_entries_are_well_formed
    (source target : str) (ops : list operation) :
  Forall (fun entry =>
            strip (original entry) = original entry
            /\ (2 <= length (original entry))%nat
            /\ (exists ch, ch ∈ original entry /\ ch ∈ vowels)
            /\ translated entry <> [])
         (history (state_of (run_session ops (init source target)))).
Proof.
  assert (Hinit : Forall (entry_ok source target) (history (init source target)))
    by constructor.
  destruct (run_session_entries_ok ops (init source target) Hinit)
    as (_ & _ & Hok).
  eapply Forall_impl; [exact Hok |].
  intros entry (_ & _ & _ & _ & Htrim & Hlooks & Htr).
  apply looks_like_speech_true in Hlooks as [Hlen Hvowel]. auto.
Qed.

(** X10. After any operations on a session constructed with any language
    pair, [_show_history] does not raise and changes nothing: it prints
    the notice when the history is empty and otherwise one table with
    one row per entry, in the order of the history. *)
Theorem show_history_after_any_run
    (source target : str) (ops : list operation) :
  _show_history (state_of (run_session ops (init source target)))
  = (Ok tt, state_of (run_session ops (init source target)),
     match history (state_of (run_session ops (init source target))) with
     | [] => [ConsolePrint (lit "[dim]No conversation history yet.[/dim]")]
     | _ :: _ =>
         [ConsolePrintTable (lit "Conversation History")
            (map row_of
               (history (state_of (run_session ops (init source target)))))]
     end).
Proof.
  assert (Hinit : Forall (entry_ok source target) (history (init source target)))
    by constructor.
  destruct (run_session_entries_ok ops (init source target) Hinit)
    as (_ & _ & Hok).
  set (s := state_of (run_session ops (init source target))) in *.
  assert (Hcolored : Forall (fun entry =>
            LANG_COLOR !! entry_source_lang entry
            = Some (color_of (entry_source_lang entry))
            /\ LANG_COLOR !! entry_target_lang entry
               = Some (color_of (entry_target_lang entry))) (history s)).
  { eapply Forall_impl; [exact Hok |].
    intros entry (-> & -> & Hsc & Htc & _). auto. }
  unfold _show_history. unfold bind at 1. unfold get_self at 1.
  destruct (history s) as [| entry rest] eqn:Hh; [reflexivity |].
  unfold bind. rewrite (history_rows_colored _ s Hcolored). reflexivity.
Qed.

(** ** Text mode *)

Lemma core_events_lift (tr : list event) : core_events (map Core tr) = tr.
Proof.
  induction tr as [| ev tr IH]; [reflexivity |].
  cbn. unfold core_events in IH. by rewrite IH.
Qed.

Lemma core_events_app (tr1 tr2 : list ui_event) :
  core_events (tr1 ++ tr2) = core_events tr1 ++ core_events tr2.
Proof. apply omap_app. Qed.

Lemma core_events_prompt (prompt : str) (tr : list event) :
  core_events (ConsoleInput prompt :: map Core tr) = tr.
Proof. apply (core_events_lift tr). Qed.

Lemma perform_process_run (w : World) (text : str) (s : LiveTranslator) :
  perform (Process w text) s
  = match process w text s with
    | (Ok _, s1, tr) => (Ok tt, s1, tr)
    | (Raised e, s1, tr) => (Raised e, s1, tr)
    end.
Proof.
  cbn [perform]. unfold bind, ret.
  destruct (process w text s) as [[[r | e] s1] tr]; [| reflexivity].
  by rewrite app_nil_r.
Qed.

(** One pass of the loop of text mode, case by case. *)
Lemma text_turn_run (lower : str -> str) (key : key) (s : LiveTranslator) :
  text_turn lower key s
  = match key with
    | CtrlC => (Done Break, s, [ConsoleInput text_prompt])
    | InputFails e => (Abort (Exception e), s, [ConsoleInput text_prompt])
    | Typed line w =>
        if bool_decide (strip line = []) then
          (Done Continue, s, [ConsoleInput text_prompt])
        else if bool_decide (lower (strip line) ∈ [lit "quit"; lit "exit"; lit "q"])
        then (Done Break, s, [ConsoleInput text_prompt])
        else
          match perform (if bool_decide (lower (strip line) = lit "history")
                         then ShowHistory else Process w (strip line)) s with
          | (Ok _, s1, tr) =>
              (Done Continue, s1, ConsoleInput text_prompt :: map Core tr)
          | (Raised e, s1, tr) =>
              (Abort (Exception e), s1, ConsoleInput text_prompt :: map Core tr)
          end
    end.
Proof.
  destruct key as [line w | | e]; [| reflexivity | reflexivity].
  unfold text_turn, except_interrupt, console_input.
  unfold ui_bind at 1. unfold ui_bind at 1. unfold ui_emit at 1.
  unfold ui_ret at 1. cbn [fst snd].
  repeat case_bool_decide; try reflexivity.
  - cbn [perform]. unfold ui_bind, lift, ui_ret.
    destruct (_show_history s) as [[[r | e] s1] tr]; cbn;
      by rewrite ?app_nil_r.
  - rewrite perform_process_run. unfold ui_bind, lift, ui_ret.
    destruct (process w (strip line) s) as [[[r | e] s1] tr]; cbn;
      by rewrite ?app_nil_r.
Qed.

Lemma text_loop_cons
    (lower : str -> str) (k : key) (rest : list key) (s : LiveTranslator) :
  text_loop lower (k :: rest) s
  = match text_turn lower k s with
    | (Done Continue, s1, tr1) =>
        match text_loop lower rest s1 with
        | (r, s2, tr2) => (r, s2, tr1 ++ tr2)
        end
    | (Done Break, s1, tr1) => (Done tt, s1, tr1)
    | (Abort sig, s1, tr1) => (Abort sig, s1, tr1)
    | (Pending, s1, tr1) => (Pending, s1, tr1)
    end.
Proof.
  cbn [text_loop]. unfold ui_bind.
  destruct (text_turn lower k s) as [[[[] | sig |] s1] tr1];
    try reflexivity.
  unfold ui_ret. by rewrite app_nil_r.
Qed.

Lemma text_loop_refines (lower : str -> str) (keys : list key) (s : LiveTranslator) :
  ui_state_of (text_loop lower keys s)
  = state_of (run_session (operations_of_keys lower keys) s)
  /\ core_events (ui_trace_of (text_loop lower keys s))
     = trace_of (run_session (operations_of_keys lower keys) s).
Proof.
  revert s. induction keys as [| key rest IH]; intros s; [by cbn |].
  rewrite text_loop_cons, text_turn_run.
  destruct key as [line w | | e]; [| by cbn | by cbn].
  cbn [operations_of_keys].
  case_bool_decide as Hblank.
  { specialize (IH s). destruct (text_loop lower rest s) as [[r2 s2] tr2].
    exact IH. }
  case_bool_decide as Hquit; [by cbn |].
  set (op := if bool_decide (lower (strip line) = lit "history")
             then ShowHistory else Process w (strip line)).
  assert (Hops : (if bool_decide (lower (strip line) = lit "history")
                  then ShowHistory :: operations_of_keys lower rest
                  else Process w (strip line) :: operations_of_keys lower rest)
                 = op :: operations_of_keys lower rest)
    by (unfold op; by case_bool_decide).
  rewrite Hops. cbn [run_session]. unfold bind.
  destruct (perform op s) as [[[u | e] s1] tr1].
  - specialize (IH s1).
    destruct (text_loop lower rest s1) as [[r2 s2] tr2].
    destruct (run_session (operations_of_keys lower rest) s1) as [[r3 s3] tr3].
    unfold ui_state_of, state_of, ui_trace_of, trace_of in *.
    cbn [fst snd] in IH |- *.
    destruct IH as [-> <-]. split; [reflexivity |].
    by rewrite core_events_app, core_events_prompt.
  - unfold ui_state_of, state_of, ui_trace_of, trace_of. cbn [fst snd].
    split; [reflexivity |]. apply core_events_prompt.
Qed.

(** The opening of [run_text_mode] in a session over the configured
    languages: the panel, then the loop. *)
Lemma run_text_mode_run (lower : str -> str) (keys : list key) (s : LiveTranslator) :
  valid_session s ->
  run_text_mode lower keys s
  = match text_loop lower keys s with
    | (r, s', tr) =>
        (r, s',
         PrintPanel false
           (text_mode_panel (color_of (source_lang s)) (name_of (source_lang s))
              (color_of (target_lang s)) (name_of (target_lang s)))
           (Some app_title) (lit "blue") :: tr)
    end.
Proof.
  intros [Hsrc Htgt].
  destruct (known_lang_tables _ Hsrc) as [Hsc Hsn].
  destruct (known_lang_tables _ Htgt) as [Htc Htn].
  unfold run_text_mode.
  unfold ui_bind at 1. unfold lift at 1, get_self at 1.
  unfold ui_bind at 1. unfold lift at 1, getitem at 1. rewrite Hsc.
  unfold ret at 1.
  unfold ui_bind at 1. unfold lift at 1, getitem at 1. rewrite Htc.
  unfold ret at 1.
  unfold ui_bind at 1. unfold lift at 1, getitem at 1. rewrite Hsn.
  unfold ret at 1.
  unfold ui_bind at 1. unfold lift at 1, getitem at 1. rewrite Htn.
  unfold ret at 1.
  unfold ui_bind at 1. unfold ui_emit at 1. cbn [map app].
  destruct (text_loop lower keys s) as [[r s'] tr]. reflexivity.
Qed.

(** X11. Text mode acts on the session only through [process] and
    [_show_history].  In a session over the configured languages, the
    session after [run_text_mode] and everything the methods emitted
    are those of the operations the typed lines stand for: a blank line
    is skipped, "history" shows the history, "quit", "exit" and "q" end
    the loop, and any other line is processed once, trimmed, in the
    order typed. *)
Theorem text_mode_runs_the_typed_operations
    (lower : str -> str) (keys : list key) (s : LiveTranslator) :
  valid_session s ->
  ui_state_of (run_text_mode lower keys s)
  = state_of (run_session (operations_of_keys lower keys) s)
  /\ core_events (ui_trace_of (run_text_mode lower keys s))
     = trace_of (run_session (operations_of_keys lower keys) s).
Proof.
  intros Hvalid. rewrite (run_text_mode_run lower keys s Hvalid).
  destruct (text_loop_refines lower keys s) as [Hs Ht].
  destruct (text_loop lower keys s) as [[r s'] tr].
  unfold ui_state_of, ui_trace_of in *. cbn in Hs, Ht |- *. auto.
Qed.

Lemma text_mode_runs_the_typed_operations_witness :
  ui_state_of
    (run_text_mode ascii_lower
       [Typed (lit " hola ") (world_of (Ok (Some namaste)) (Ok tt));
        Typed (lit "History") (world_of (Ok None) (Ok tt));
        Typed (lit "QUIT") (world_of (Ok None) (Ok tt));
        Typed hola (world_of (Ok (Some namaste)) (Ok tt))]
       session_es_hi)
  = state_of
      (run_session
         [Process (world_of (Ok (Some namaste)) (Ok tt)) hola; ShowHistory]
         session_es_hi).
Proof.
  assert (Hvalid : valid_session session_es_hi)
    by (split; [left | right]; reflexivity).
  destruct (text_mode_runs_the_typed_operations ascii_lower
              [Typed (lit " hola ") (world_of (Ok (Some namaste)) (Ok tt));
               Typed (lit "History") (world_of (Ok None) (Ok tt));
               Typed (lit "QUIT") (world_of (Ok None) (Ok tt));
               Typed hola (world_of (Ok (Some namaste)) (Ok tt))]
              session_es_hi Hvalid) as [Hs _].
  exact Hs.
Defined.


Lemma text_turn_not_pending (lower : str -> str) (k : key) (s : LiveTranslator) :
  ui_result_of (text_turn lower k s) <> Pending.
Proof.
  rewrite text_turn_run. destruct k as [line w | | e]; [| by cbn | by cbn].
  repeat case_bool_decide; try by cbn.
  - by destruct (perform ShowHistory s) as [[[u | e] s1] tr].
  - by destruct (perform (Process w (strip line)) s) as [[[u | e] s1] tr].
Qed.

Lemma text_loop_stops
    (lower : str -> str) (pre : list key) (k : key) (post : list key)
    (s : LiveTranslator) :
  stops lower k ->
  text_loop lower (pre ++ k :: post) s = text_loop lower (pre ++ [k]) s
  /\ ui_result_of (text_loop lower (pre ++ k :: post) s) <> Pending.
Proof.
  intros Hstop. revert s. induction pre as [| k' pre IH]; intros s.
  - cbn [app]. rewrite !text_loop_cons, text_turn_run.
    destruct k as [line w | | e]; [| by cbn | contradiction].
    destruct Hstop as [Hne Hquit].
    rewrite bool_decide_eq_false_2 by exact Hne.
    rewrite bool_decide_eq_true_2 by exact Hquit. by cbn.
  - cbn [app]. rewrite !text_loop_cons.
    pose proof (text_turn_not_pending lower k' s) as Hturn.
    destruct (text_turn lower k' s) as [[[[] | sig |] s1] tr1]; try by cbn.
    destruct (IH s1) as [-> Hres].
    destruct (text_loop lower (pre ++ [k]) s1) as [[r2 s2] tr2]. by cbn.
Qed.

(** X16. Text mode ends at the first line that reads "quit", "exit" or
    "q" (trimmed, in lower case) and at Ctrl+C: in a session over the
    configured languages, with such a key in the script the run is not
    left waiting for input, and what is typed after that key changes
    nothing. *)
Theorem text_mode_ends_at_quit
    (lower : str -> str) (pre : list key) (k : key) (post : list key)
    (s : LiveTranslator) :
  valid_session s ->
  stops lower k ->
  run_text_mode lower (pre ++ k :: post) s = run_text_mode lower (pre ++ [k]) s
  /\ ui_result_of (run_text_mode lower (pre ++ k :: post) s) <> Pending.
Proof.
  intros Hvalid Hstop.
  rewrite !(run_text_mode_run lower _ s Hvalid).
  destruct (text_loop_stops lower pre k post s Hstop) as [-> Hres].
  destruct (text_loop lower (pre ++ [k]) s) as [[r s'] tr]. by cbn.
Qed.

Lemma text_mode_ends_at_quit_witness :
  run_text_mode ascii_lower
    ([Typed hola (world_of (Ok (Some namaste)) (Ok tt))]
     ++ Typed (lit " Exit ") (world_of (Ok None) (Ok tt))
        :: [Typed hola (world_of (Ok (Some namaste)) (Ok tt)); CtrlC])
    session_es_hi
  = run_text_mode ascii_lower
      ([Typed hola (world_of (Ok (Some namaste)) (Ok tt))]
       ++ [Typed (lit " Exit ") (world_of (Ok None) (Ok tt))])
      session_es_hi.
Proof.
  assert (Hvalid : valid_session session_es_hi)
    by (split; [left | right]; reflexivity).
  assert (Hstop : stops ascii_lower
                    (Typed (lit " Exit ") (world_of (Ok None) (Ok tt)))).
  { split; [vm_compute; discriminate |].
    apply (bool_decide_unpack _). vm_compute. exact I. }
  destruct (text_mode_ends_at_quit ascii_lower
              [Typed hola (world_of (Ok (Some namaste)) (Ok tt))]
              (Typed (lit " Exit ") (world_of (Ok None) (Ok tt)))
              [Typed hola (world_of (Ok (Some namaste)) (Ok tt)); CtrlC]
              session_es_hi Hvalid Hstop) as [Heq _].
  exact Heq.
Defined.




(** ** Voice mode *)

Lemma known_lang_code (lang : str) :
  known_lang lang -> SR_LANG_CODE !! lang = Some (code_of lang).
Proof. intros [-> | ->]; vm_compute; reflexivity. Qed.

(** One pass of the loop of voice mode, case by case. *)
Lemma voice_turn_run (code : str) (cap : capture) (s : LiveTranslator) :
  valid_session s ->
  voice_turn code cap s
  = match cap with
    | MicFails e => (Abort (Exception e), s, [OpenMicrophone])
    | Captured WaitTimeout =>
        (Done Continue, s, voice_opening s ++ [Core (ConsolePrint no_speech)])
    | Captured Interrupted => (Done Break, s, voice_opening s)
    | Captured (Audio UnknownValue) =>
        (Done Continue, s,
         voice_asking s code ++ [Core (ConsolePrint not_understood)])
    | Captured (Audio (RequestError msg)) =>
        (Done Continue, s,
         voice_asking s code ++ [Core (ConsolePrint (speech_api_error msg))])
    | Captured (Audio (Transcript text w)) =>
        match process w text s with
        | (Ok _, s1, tr) => (Done Continue, s1, voice_asking s code ++ map Core tr)
        | (Raised e, s1, tr) =>
            (Abort (Exception e), s1, voice_asking s code ++ map Core tr)
        end
    end.
Proof.
  intros [Hsrc _]. destruct (known_lang_tables _ Hsrc) as [_ Hsn].
  unfold voice_turn, except_interrupt, voice_asking, voice_opening.
  unfold ui_bind at 1. unfold lift at 1, get_self at 1.
  unfold ui_bind at 1. unfold ui_emit at 1.
  destruct cap as [e | heard]; [reflexivity |].
  unfold ui_bind at 1. unfold lift at 1, getitem at 1. rewrite Hsn.
  unfold ret at 1.
  destruct heard as [| | [text w | | msg]]; try reflexivity.
  unfold ui_bind, ui_print, ui_emit, lift, ui_ret.
  destruct (process w text s) as [[[r | e] s1] tr]; cbn;
    by rewrite ?app_nil_r.
Qed.

Lemma voice_loop_cons
    (code : str) (cap : capture) (rest : list capture) (s : LiveTranslator) :
  voice_loop code (cap :: rest) s
  = match voice_turn code cap s with
    | (Done Continue, s1, tr1) =>
        match voice_loop code rest s1 with
        | (r, s2, tr2) => (r, s2, tr1 ++ tr2)
        end
    | (Done Break, s1, tr1) => (Done tt, s1, tr1)
    | (Abort sig, s1, tr1) => (Abort sig, s1, tr1)
    | (Pending, s1, tr1) => (Pending, s1, tr1)
    end.
Proof.
  cbn [voice_loop]. unfold ui_bind.
  destruct (voice_turn code cap s) as [[[[] | sig |] s1] tr1];
    try reflexivity.
  unfold ui_ret. by rewrite app_nil_r.
Qed.

Lemma run_session_cons
    (op : operation) (rest : list operation) (s : LiveTranslator) :
  run_session (op :: rest) s
  = match perform op s with
    | (Ok _, s1, tr1) =>
        match run_session rest s1 with
        | (r, s2, tr2) => (r, s2, tr1 ++ tr2)
        end
    | (Raised e, s1, tr1) => (Raised e, s1, tr1)
    end.
Proof. reflexivity. Qed.

Lemma process_valid (w : World) (text : str) (s : LiveTranslator) :
  valid_session s -> valid_session (state_of (process w text s)).
Proof.
  intros Hvalid.
  by destruct (process_cases w text s)
    as [(-> & _ & _) | (c & r & _ & _ & _ & _ & ->)].
Qed.

Lemma effects_app (tr1 tr2 : list event) :
  effects (tr1 ++ tr2) = effects tr1 ++ effects tr2.
Proof. apply List.filter_app. Qed.

Lemma effects_voice_asking (s : LiveTranslator) (code : str) (tr : list ui_event) :
  effects (core_events (voice_asking s code ++ tr)) = effects (core_events tr).
Proof. reflexivity. Qed.

Lemma recognitions_app (tr1 tr2 : list ui_event) :
  recognitions (tr1 ++ tr2) = recognitions tr1 ++ recognitions tr2.
Proof. apply omap_app. Qed.

Lemma recognitions_lift (tr : list event) : recognitions (map Core tr) = [].
Proof. induction tr as [| ev tr IH]; [reflexivity | exact IH]. Qed.

Lemma voice_loop_refines (code : str) (caps : list capture) (s : LiveTranslator) :
  valid_session s ->
  ui_state_of (voice_loop code caps s)
  = state_of (run_session (operations_of_captures caps) s)
  /\ effects (core_events (ui_trace_of (voice_loop code caps s)))
     = effects (trace_of (run_session (operations_of_captures caps) s))
  /\ Forall (fun language => language = code)
            (recognitions (ui_trace_of (voice_loop code caps s))).
Proof.
  revert s. induction caps as [| cap rest IH]; intros s Hvalid;
    [by cbn |].
  rewrite voice_loop_cons, (voice_turn_run code cap s Hvalid).
  destruct cap as [e | [| | [text w | | msg]]]; cbn [operations_of_captures];
    try by cbn.
  - destruct (IH s Hvalid) as (Hs & Ht & Hr).
    destruct (voice_loop code rest s) as [[r2 s2] tr2].
    unfold ui_state_of, ui_trace_of in *. cbn [fst snd] in *.
    split; [exact Hs |]. split; [exact Ht | exact Hr].
  - pose proof (process_valid w text s Hvalid) as Hvalid1.
    rewrite run_session_cons, perform_process_run.
    destruct (process w text s) as [[[r | e] s1] tr1].
    + destruct (IH s1 Hvalid1) as (Hs & Ht & Hr).
      destruct (voice_loop code rest s1) as [[r2 s2] tr2].
      destruct (run_session (operations_of_captures rest) s1) as [[r3 s3] tr3].
      unfold ui_state_of, state_of, ui_trace_of, trace_of in *.
      cbn [fst snd] in *.
      split; [exact Hs |]. split.
      * rewrite <- app_assoc, effects_voice_asking.
        by rewrite core_events_app, core_events_lift, !effects_app, Ht.
      * rewrite <- app_assoc, !recognitions_app, recognitions_lift.
        cbn. by constructor.
    + unfold ui_state_of, state_of, ui_trace_of, trace_of. cbn [fst snd].
      split; [reflexivity |]. split.
      * by rewrite effects_voice_asking, core_events_lift.
      * rewrite recognitions_app, recognitions_lift. cbn. by constructor.
  - destruct (IH s Hvalid) as (Hs & Ht & Hr).
    destruct (voice_loop code rest s) as [[r2 s2] tr2].
    unfold ui_state_of, ui_trace_of in *. cbn [fst snd] in *.
    split; [exact Hs |]. split; [exact Ht |]. cbn. by constructor.
  - destruct (IH s Hvalid) as (Hs & Ht & Hr).
    destruct (voice_loop code rest s) as [[r2 s2] tr2].
    unfold ui_state_of, ui_trace_of in *. cbn [fst snd] in *.
    split; [exact Hs |]. split; [exact Ht |]. cbn. by constructor.
Qed.

(** The opening of [run_voice_mode] when the library is installed, in a
    session over the configured languages: the panel, then the loop. *)
Lemma run_voice_mode_run (caps : list capture) (s : LiveTranslator) :
  valid_session s ->
  run_voice_mode true caps s
  = match voice_loop (code_of (source_lang s)) caps s with
    | (r, s', tr) =>
        (r, s',
         ImportSpeechRecognition
         :: PrintPanel false
              (voice_mode_panel (color_of (source_lang s))
                 (name_of (source_lang s)) (color_of (target_lang s))
                 (name_of (target_lang s)))
              (Some app_title) (lit "blue") :: tr)
    end.
Proof.
  intros [Hsrc Htgt].
  destruct (known_lang_tables _ Hsrc) as [Hsc Hsn].
  destruct (known_lang_tables _ Htgt) as [Htc Htn].
  pose proof (known_lang_code _ Hsrc) as Hcode.
  unfold run_voice_mode. cbn [negb].
  unfold ui_bind at 1. unfold ui_emit at 1.
  unfold ui_bind at 1. unfold lift at 1, get_self at 1.
  unfold ui_bind at 1. unfold lift at 1, getitem at 1. rewrite Hcode.
  unfold ret at 1.
  unfold ui_bind at 1. unfold lift at 1, getitem at 1. rewrite Hsc.
  unfold ret at 1.
  unfold ui_bind at 1. unfold lift at 1, getitem at 1. rewrite Htc.
  unfold ret at 1.
  unfold ui_bind at 1. unfold lift at 1, getitem at 1. rewrite Hsn.
  unfold ret at 1.
  unfold ui_bind at 1. unfold lift at 1, getitem at 1. rewrite Htn.
  unfold ret at 1.
  unfold ui_bind at 1. unfold ui_emit at 1. cbn [map app].
  destruct (voice_loop (code_of (source_lang s)) caps s) as [[r s'] tr].
  reflexivity.
Qed.



(** X13. Voice mode asks the recognition service for the language of the
    speaker only: in a session over the configured languages, every
    recognition request of [run_voice_mode] carries the locale code that
    [SR_LANG_CODE] gives for the source language, "es-ES" for Spanish
    and "hi-IN" for Hindi. *)
Theorem voice_mode_recognises_source_language
    (caps : list capture) (s : LiveTranslator) :
  valid_session s ->
  Forall (fun language =>
            SR_LANG_CODE !! source_lang s = Some language
            /\ (source_lang s = lit "es" -> language = lit "es-ES")
            /\ (source_lang s = lit "hi" -> language = lit "hi-IN"))
         (recognitions (ui_trace_of (run_voice_mode true caps s))).
Proof.
  intros Hvalid. rewrite (run_voice_mode_run caps s Hvalid).
  destruct (voice_loop_refines (code_of (source_lang s)) caps s Hvalid)
    as (_ & _ & Hr).
  destruct (voice_loop (code_of (source_lang s)) caps s) as [[r s'] tr].
  unfold ui_trace_of in *. cbn [fst snd] in *.
  change (recognitions (ImportSpeechRecognition :: PrintPanel false
            (voice_mode_panel (color_of (source_lang s))
               (name_of (source_lang s)) (color_of (target_lang s))
               (name_of (target_lang s)))
            (Some app_title) (lit "blue") :: tr))
    with (recognitions tr).
  eapply Forall_impl; [exact Hr |].
  intros language ->. destruct Hvalid as [Hsrc _].
  split; [by apply known_lang_code |].
  split; intros ->; vm_compute; reflexivity.
Qed.

Lemma voice_mode_recognises_source_language_witness :
  Forall (fun language =>
            SR_LANG_CODE !! source_lang (init (lit "hi") (lit "es")) = Some language
            /\ (source_lang (init (lit "hi") (lit "es")) = lit "es" ->
                language = lit "es-ES")
            /\ (source_lang (init (lit "hi") (lit "es")) = lit "hi" ->
                language = lit "hi-IN"))
         (recognitions
            (ui_trace_of
               (run_voice_mode true
                  [Captured (Audio UnknownValue); Captured Interrupted]
                  (init (lit "hi") (lit "es"))))).
Proof.
  apply (voice_mode_recognises_source_language
           [Captured (Audio UnknownValue); Captured Interrupted]
           (init (lit "hi") (lit "es"))).
  split; [right | left]; reflexivity.
Defined.

(** ** [run] and [main] *)


(** What [run] adds to its front end. *)
Lemma run_run (lower : str -> str) (sr_installed : bool) (mode : str)
    (keys : list key) (caps : list capture) (s : LiveTranslator) :
  run lower sr_installed mode keys caps s
  = match (if bool_decide (mode = lit "voice")
           then run_voice_mode sr_installed caps
           else run_text_mode lower keys) s with
    | (Done _, s1, tr) =>
        (Done tt, s1,
         tr ++ [Core (ConsolePrint (session_ended (length (history s1))));
                Core (ConsolePrint goodbye)])
    | (Abort sig, s1, tr) => (Abort sig, s1, tr)
    | (Pending, s1, tr) => (Pending, s1, tr)
    end.
Proof.
  unfold run. unfold ui_bind at 1.
  destruct ((if bool_decide (mode = lit "voice")
             then run_voice_mode sr_installed caps
             else run_text_mode lower keys) s) as [[[u | sig |] s1] tr];
    reflexivity.
Qed.

Lemma run_voice_mode_missing (caps : list capture) (s : LiveTranslator) :
  run_voice_mode false caps s
  = (Abort (SystemExit 1), s,
     [ImportSpeechRecognition; Core (ConsolePrint voice_mode_missing)]).
Proof. reflexivity. Qed.

(** The front end that [run] starts acts on the session as a sequence of
    operations. *)
Lemma front_end_refines (lower : str -> str) (sr_installed : bool) (mode : str)
    (keys : list key) (caps : list capture) (s : LiveTranslator) :
  valid_session s ->
  exists ops,
    ui_state_of (run lower sr_installed mode keys caps s)
    = state_of (run_session ops s)
    /\ effects (core_events
                 (ui_trace_of ((if bool_decide (mode = lit "voice")
                                then run_voice_mode sr_installed caps
                                else run_text_mode lower keys) s)))
       = effects (trace_of (run_session ops s)).
Proof.
  intros Hvalid.
  assert (Hstate : ui_state_of (run lower sr_installed mode keys caps s)
                   = ui_state_of ((if bool_decide (mode = lit "voice")
                                   then run_voice_mode sr_installed caps
                                   else run_text_mode lower keys) s)).
  { rewrite run_run.
    by destruct ((if bool_decide (mode = lit "voice")
                  then run_voice_mode sr_installed caps
                  else run_text_mode lower keys) s) as [[[u | sig |] s1] tr]. }
  rewrite Hstate. case_bool_decide as Hmode.
  - destruct sr_installed.
    + exists (operations_of_captures caps).
      rewrite (run_voice_mode_run caps s Hvalid).
      destruct (voice_loop_refines (code_of (source_lang s)) caps s Hvalid)
        as (Hs & Ht & _).
      destruct (voice_loop (code_of (source_lang s)) caps s) as [[r s'] tr].
      unfold ui_state_of, ui_trace_of in *. cbn [fst snd] in *. auto.
    + exists []. by rewrite run_voice_mode_missing.
  - exists (operations_of_keys lower keys).
    rewrite (run_text_mode_run lower keys s Hvalid).
    destruct (text_loop_refines lower keys s) as [Hs Ht].
    destruct (text_loop lower keys s) as [[r s'] tr].
    unfold ui_state_of, ui_trace_of in *. cbn [fst snd] in *.
    split; [exact Hs |].
    change (core_events (PrintPanel false
              (text_mode_panel (color_of (source_lang s))
                 (name_of (source_lang s)) (color_of (target_lang s))
                 (name_of (target_lang s)))
              (Some app_title) (lit "blue") :: tr))
      with (core_events tr).
    by rewrite Ht.
Qed.

Lemma history_rows_trace (entries : list ConversationEntry) (s : LiveTranslator) :
  trace_of (history_rows entries s) = [].
Proof.
  induction entries as [| entry rest IH]; [reflexivity |].
  cbn [history_rows]. unfold bind at 1. unfold getitem at 1.
  destruct (LANG_COLOR !! entry_source_lang entry); [| reflexivity].
  unfold ret at 1. unfold bind at 1. unfold getitem at 1.
  destruct (LANG_COLOR !! entry_target_lang entry); [| reflexivity].
  unfold ret at 1. unfold bind at 1.
  destruct (history_rows rest s) as [[[rows | e] s'] tr];
    unfold trace_of in *; cbn in IH |- *; by rewrite IH.
Qed.

Lemma show_history_effects (s : LiveTranslator) :
  effects (trace_of (_show_history s)) = [].
Proof.
  unfold _show_history. unfold bind at 1. unfold get_self at 1.
  destruct (history s) as [| entry rest] eqn:Hh; [reflexivity |].
  unfold bind at 1.
  pose proof (history_rows_trace (entry :: rest) s) as Hrows.
  destruct (history_rows (entry :: rest) s) as [[[rows | e] s'] tr];
    unfold trace_of in *; cbn in Hrows |- *; by rewrite Hrows.
Qed.

Lemma thread_starts_effects (tr : list event) :
  List.filter is_thread_start tr = List.filter is_thread_start (effects tr).
Proof.
  induction tr as [| ev tr IH]; [reflexivity |].
  destruct ev; cbn; by rewrite ?IH.
Qed.

(** Each operation adds as many entries as it starts threads. *)
Lemma perform_count (op : operation) (s : LiveTranslator) :
  length (history (state_of (perform op s)))
  = (length (history s)
     + length (List.filter is_thread_start (trace_of (perform op s))))%nat.
Proof.
  destruct op as [w text |].
  - rewrite perform_process_run.
    destruct (process_cases w text s)
      as [(Hs & Hquiet & _) | (c & r & _ & _ & _ & _ & Hrun)].
    + destruct (process w text s) as [[[r | e] s1] tr];
        unfold state_of, trace_of in *; cbn [fst snd] in *;
        rewrite Hs, Hquiet; cbn; lia.
    + rewrite Hrun. unfold state_of, trace_of. cbn.
      rewrite length_app. cbn. lia.
  - cbn [perform]. rewrite show_history_state.
    rewrite thread_starts_effects, show_history_effects. cbn. lia.
Qed.

Lemma run_session_count (ops : list operation) (s : LiveTranslator) :
  length (history (state_of (run_session ops s)))
  = (length (history s)
     + length (List.filter is_thread_start (trace_of (run_session ops s))))%nat.
Proof.
  revert s. induction ops as [| op rest IH]; intros s; [cbn; lia |].
  pose proof (perform_count op s) as Hop.
  rewrite run_session_cons.
  destruct (perform op s) as [[[u | e] s1] tr1];
    unfold state_of, trace_of in *; cbn [fst snd] in *; [| exact Hop].
  specialize (IH s1).
  destruct (run_session rest s1) as [[r2 s2] tr2]. cbn [fst snd] in *.
  rewrite List.filter_app, length_app. lia.
Qed.

Lemma main_run (lower : str -> str) (sr_installed : bool)
    (direction : str) (w1 : World) (choice : str) (w2 : World)
    (keys : list key) (caps : list capture) :
  main lower sr_installed (Typed direction w1 :: Typed choice w2 :: keys) caps
  = match run lower sr_installed
            (if bool_decide (strip choice = lit "2") then lit "voice"
             else lit "text")
            keys caps (main_session direction) with
    | (r, translator, tr) =>
        (r, Some translator,
         direction_menu ++ [ConsoleInput choice_prompt] ++ mode_menu
         ++ [ConsoleInput choice_prompt] ++ tr)
    end.
Proof. reflexivity. Qed.

(** [main] constructs a session only after two lines were typed. *)
Lemma main_with_session (lower : str -> str) (sr_installed : bool)
    (keys : list key) (caps : list capture)
    (r : ui_outcome unit) (s' : LiveTranslator) (tr : list ui_event) :
  main lower sr_installed keys caps = (r, Some s', tr) ->
  exists direction w1 choice w2 rest,
    keys = Typed direction w1 :: Typed choice w2 :: rest.
Proof.
  destruct keys as [| [direction w1 | | e1] [| [choice w2 | | e2] rest]];
    try discriminate.
  intros _. by eexists _, _, _, _, _.
Qed.


Lemma run_count (lower : str -> str) (sr_installed : bool) (mode : str)
    (keys : list key) (caps : list capture) (s : LiveTranslator) :
  valid_session s ->
  length (history (ui_state_of (run lower sr_installed mode keys caps s)))
  = (length (history s)
     + length (List.filter is_thread_start
                 (core_events
                    (ui_trace_of (run lower sr_installed mode keys caps s)))))%nat.
Proof.
  intros Hvalid.
  destruct (front_end_refines lower sr_installed mode keys caps s Hvalid)
    as (ops & -> & Heff).
  rewrite run_session_count.
  rewrite (thread_starts_effects (trace_of (run_session ops s))), <- Heff.
  rewrite <- thread_starts_effects. f_equal. f_equal.
  rewrite run_run.
  destruct ((if bool_decide (mode = lit "voice")
             then run_voice_mode sr_installed caps
             else run_text_mode lower keys) s) as [[[u | sig |] s1] tr];
    unfold ui_trace_of; cbn [fst snd]; try reflexivity.
  rewrite core_events_app, List.filter_app. cbn. by rewrite app_nil_r.
Qed.

(** X14. When voice mode is chosen and the [speech_recognition] library
    is missing, [main] prints the installation hint and exits with code
    1: the session was constructed, but nothing is listened to, and
    neither the summary of the session nor the goodbye is printed. *)
Theorem voice_mode_needs_the_library
    (lower : str -> str) (direction : str) (w1 : World) (choice : str)
    (w2 : World) (keys : list key) (caps : list capture) :
  strip choice = lit "2" ->
  main lower false (Typed direction w1 :: Typed choice w2 :: keys) caps
  = (Abort (SystemExit 1), Some (main_session direction),
     direction_menu ++ [ConsoleInput choice_prompt] ++ mode_menu
     ++ [ConsoleInput choice_prompt]
     ++ [ImportSpeechRecognition; Core (ConsolePrint voice_mode_missing)]).
Proof.
  intros Hchoice. rewrite main_run, Hchoice.
  rewrite bool_decide_eq_true_2 by reflexivity.
  rewrite run_run. rewrite bool_decide_eq_true_2 by reflexivity.
  by rewrite run_voice_mode_missing.
Qed.

Lemma voice_mode_needs_the_library_witness :
  main ascii_lower false
    (Typed (lit "1") (world_of (Ok None) (Ok tt))
     :: Typed (lit " 2 ") (world_of (Ok None) (Ok tt)) :: [])
    [Captured (Audio (Transcript hola (world_of (Ok (Some namaste)) (Ok tt))))]
  = (Abort (SystemExit 1), Some (main_session (lit "1")),
     direction_menu ++ [ConsoleInput choice_prompt] ++ mode_menu
     ++ [ConsoleInput choice_prompt]
     ++ [ImportSpeechRecognition; Core (ConsolePrint voice_mode_missing)]).
Proof.
  apply (voice_mode_needs_the_library ascii_lower (lit "1")
           (world_of (Ok None) (Ok tt)) (lit " 2 ") (world_of (Ok None) (Ok tt))
           []
           [Captured (Audio (Transcript hola
                               (world_of (Ok (Some namaste)) (Ok tt))))]).
  vm_compute. reflexivity.
Defined.

(** X15. When [main] returns, the last two things printed are the
    summary and the goodbye, and the number of translations the summary
    announces is the length of the history, which is the number of
    speech threads started during the whole run: every turn counted was
    spoken and recorded, in text mode and in voice mode alike. *)
Theorem main_announces_the_turns_recorded
    (lower : str -> str) (sr_installed : bool)
    (keys : list key) (caps : list capture) :
  main_outcome (main lower sr_installed keys caps) = Done tt ->
  exists translator before,
    main_translator (main lower sr_installed keys caps) = Some translator
    /\ main_trace (main lower sr_installed keys caps)
       = before
         ++ [Core (ConsolePrint (session_ended (length (history translator))));
             Core (ConsolePrint goodbye)]
    /\ length (history translator)
       = length (List.filter is_thread_start
                   (core_events (main_trace (main lower sr_installed keys caps)))).
Proof.
  destruct keys as [| [direction w1 | | e1] [| [choice w2 | | e2] rest]];
    try discriminate.
  rewrite main_run.
  set (mode := if bool_decide (strip choice = lit "2") then lit "voice"
               else lit "text").
  pose proof (run_count lower sr_installed mode rest caps
                (main_session direction) (main_session_valid direction))
    as Hcount.
  assert (Hempty : history (main_session direction) = []).
  { unfold main_session. by destruct (select_direction direction). }
  rewrite Hempty in Hcount. cbn [length Nat.add] in Hcount.
  rewrite run_run in *.
  destruct ((if bool_decide (mode = lit "voice")
             then run_voice_mode sr_installed caps
             else run_text_mode lower rest) (main_session direction))
    as [[[u | sig |] s1] tr]; try discriminate.
  intros _. unfold main_outcome, main_translator, main_trace.
  unfold ui_state_of, ui_trace_of in Hcount. cbn [fst snd] in *.
  exists s1, (direction_menu ++ [ConsoleInput choice_prompt] ++ mode_menu
              ++ [ConsoleInput choice_prompt] ++ tr).
  split; [reflexivity |]. split; [by rewrite <- !app_assoc |].
  exact Hcount.
Qed.

Lemma main_announces_the_turns_recorded_witness :
  exists translator before,
    main_translator
      (main ascii_lower true
         [Typed (lit "2") (world_of (Ok None) (Ok tt));
          Typed (lit "1") (world_of (Ok None) (Ok tt));
          Typed hola (world_of (Ok (Some namaste)) (Ok tt));
          Typed (lit "xyz") (world_of (Ok (Some namaste)) (Ok tt));
          Typed (lit "q") (world_of (Ok None) (Ok tt))] [])
    = Some translator
    /\ main_trace
         (main ascii_lower true
            [Typed (lit "2") (world_of (Ok None) (Ok tt));
             Typed (lit "1") (world_of (Ok None) (Ok tt));
             Typed hola (world_of (Ok (Some namaste)) (Ok tt));
             Typed (lit "xyz") (world_of (Ok (Some namaste)) (Ok tt));
             Typed (lit "q") (world_of (Ok None) (Ok tt))] [])
       = before
         ++ [Core (ConsolePrint (session_ended (length (history translator))));
             Core (ConsolePrint goodbye)]
    /\ length (history translator)
       = length (List.filter is_thread_start
                   (core_events
                      (main_trace
                         (main ascii_lower true
                            [Typed (lit "2") (world_of (Ok None) (Ok tt));
                             Typed (lit "1") (world_of (Ok None) (Ok tt));
                             Typed hola (world_of (Ok (Some namaste)) (Ok tt));
                             Typed (lit "xyz") (world_of (Ok (Some namaste)) (Ok tt));
                             Typed (lit "q") (world_of (Ok None) (Ok tt))] [])))).
Proof.
  apply (main_announces_the_turns_recorded ascii_lower true
           [Typed (lit "2") (world_of (Ok None) (Ok tt));
            Typed (lit "1") (world_of (Ok None) (Ok tt));
            Typed hola (world_of (Ok (Some namaste)) (Ok tt));
            Typed (lit "xyz") (world_of (Ok (Some namaste)) (Ok tt));
            Typed (lit "q") (world_of (Ok None) (Ok tt))] []).
  vm_compute. reflexivity.
Defined.



(** X19. The session that [main] constructs has the direction chosen at
    the first menu, Hindi to Spanish when the answer trims to "2" and
    Spanish to Hindi for any other answer, and keeps it: however the run
    goes on, in text or in voice mode, the session is still over that
    pair at the end and every entry of its history carries it. *)
Theorem main_keeps_the_chosen_direction
    (lower : str -> str) (sr_installed : bool)
    (keys : list key) (caps : list capture) (translator : LiveTranslator) :
  main_translator (main lower sr_installed keys caps) = Some translator ->
  exists direction w rest,
    keys = Typed direction w :: rest
    /\ (source_lang translator, target_lang translator)
       = (if bool_decide (strip direction = lit "2")
          then (lit "hi", lit "es") else (lit "es", lit "hi"))
    /\ Forall (fun entry =>
                entry_source_lang entry = source_lang translator
                /\ entry_target_lang entry = target_lang translator)
             (history translator).
Proof.
  intros Hmain.
  destruct (main lower sr_installed keys caps) as [[r o] tr] eqn:Hrun.
  unfold main_translator in Hmain. cbn [fst snd] in Hmain. subst o.
  destruct (main_with_session _ _ _ _ _ _ _ Hrun)
    as (direction & w1 & choice & w2 & rest & ->).
  exists direction, w1, (Typed choice w2 :: rest).
  split; [reflexivity |].
  rewrite main_run in Hrun.
  pose proof (main_session_valid direction) as Hvalid.
  assert (Hinv : history_invariant (main_session direction)).
  { unfold main_session, history_invariant.
    destruct (select_direction direction). constructor. }
  destruct (front_end_refines lower sr_installed
              (if bool_decide (strip choice = lit "2") then lit "voice"
               else lit "text")
              rest caps (main_session direction) Hvalid) as (ops & Hstate & _).
  destruct (run lower sr_installed _ rest caps (main_session direction))
    as [[r' s'] tr'].
  injection Hrun as _ -> _.
  unfold ui_state_of in Hstate. cbn [fst snd] in Hstate. subst translator.
  destruct (run_session_state ops (main_session direction) Hinv)
    as (Hs & Ht & Hi).
  rewrite Hs, Ht. split; [| by rewrite <- Hs, <- Ht].
  unfold main_session, select_direction. by case_bool_decide.
Qed.

Lemma main_keeps_the_chosen_direction_witness :
  exists direction w rest,
    [Typed (lit " 2") (world_of (Ok None) (Ok tt));
     Typed (lit "") (world_of (Ok None) (Ok tt));
     Typed hola (world_of (Ok (Some namaste)) (Ok tt))]
    = Typed direction w :: rest
    /\ (source_lang
          (with_entry (init (lit "hi") (lit "es"))
             (entry_of (world_of (Ok (Some namaste)) (Ok tt))
                (init (lit "hi") (lit "es")) hola namaste)),
        target_lang
          (with_entry (init (lit "hi") (lit "es"))
             (entry_of (world_of (Ok (Some namaste)) (Ok tt))
                (init (lit "hi") (lit "es")) hola namaste)))
       = (if bool_decide (strip direction = lit "2")
          then (lit "hi", lit "es") else (lit "es", lit "hi"))
    /\ Forall (fun entry =>
                entry_source_lang entry
                = source_lang
                    (with_entry (init (lit "hi") (lit "es"))
                       (entry_of (world_of (Ok (Some namaste)) (Ok tt))
                          (init (lit "hi") (lit "es")) hola namaste))
                /\ entry_target_lang entry
                   = target_lang
                       (with_entry (init (lit "hi") (lit "es"))
                          (entry_of (world_of (Ok (Some namaste)) (Ok tt))
                             (init (lit "hi") (lit "es")) hola namaste)))
             (history
                (with_entry (init (lit "hi") (lit "es"))
                   (entry_of (world_of (Ok (Some namaste)) (Ok tt))
                      (init (lit "hi") (lit "es")) hola namaste))).
Proof.
  apply (main_keeps_the_chosen_direction ascii_lower true
           [Typed (lit " 2") (world_of (Ok None) (Ok tt));
            Typed (lit "") (world_of (Ok None) (Ok tt));
            Typed hola (world_of (Ok (Some namaste)) (Ok tt))] []).
  vm_compute. reflexivity.
Defined.

(** ** Small cases of the front ends *)

Example str_of_nat_small :
  str_of_nat 0 = lit "0" /\ str_of_nat 7 = lit "7" /\ str_of_nat 120 = lit "120".
Proof. vm_compute. auto. Qed.

Example session_ended_two :
  session_ended 2
  = [0x0A] ++ lit "[dim]Session ended " ++ [0x2014]
    ++ lit " 2 translation(s) made.[/dim]".
Proof. vm_compute. reflexivity. Qed.

Example ascii_lower_quit : ascii_lower (lit "QuIt") = lit "quit".
Proof. vm_compute. reflexivity. Qed.

Example text_mode_waits :
  ui_result_of
    (run_text_mode ascii_lower
       [Typed hola (world_of (Ok (Some namaste)) (Ok tt))] session_es_hi)
  = Pending.
Proof. vm_compute. reflexivity. Qed.

Example voice_mode_interrupted :
  ui_result_of
    (run ascii_lower true (lit "voice") []
       [Captured WaitTimeout; Captured Interrupted] session_es_hi)
  = Done tt.
Proof. vm_compute. reflexivity. Qed.
